(** * Mergington High School activities API: the file-backed store and its
      three handlers (src/app.py), embedded in Rocq.

    The program keeps one JSON file, read in full and written in full by
    every storage operation.  The state of the model is the parsed content
    of that file: a Python [dict] from activity names to documents, each
    document a [dict] from field names to JSON values.  Python dictionaries
    keep insertion order and [json.dumps]/[json.loads] preserve it, so a
    dictionary is an association list in insertion order; assignment to an
    existing key keeps its position, assignment to a new key appends.

    Exceptions are values: a storage operation or a handler either returns
    or raises, and an operation that raises before [_write] leaves the file
    as it was.  The file is there and parses ([FileStorage.__init__] wrote
    [{}] if it was missing); a file that is deleted or damaged behind the
    program's back is outside the model, and so are floating-point
    numbers.

    A value that was read from the file is one [json.loads] accepted, and
    [json.dumps] writes it back.  A value that a caller hands to the
    storage layer is any Python value of a JSON type: [json.dumps] refuses
    an [int] of more than 4300 digits (the interpreter's limit on the
    conversion between [int] and [str]), so [_write] is told which values
    the caller added and raises [ValueError], writing nothing, when one of
    them holds such a number.  Containers nested beyond the interpreter's
    recursion limit are outside the model. *)

From Stdlib Require Import String Ascii List ZArith Bool Lia DecimalString.
Import ListNotations.
Open Scope string_scope.
Open Scope list_scope.

Set Implicit Arguments.

(** ** JSON values *)

(** What [json.loads] produces.  Numbers are the integers (the only numeric
    field of the program, [max_participants], is an [int]). *)
#[warnings="-register-all"]
Inductive json : Type :=
| JNull
| JBool (b : bool)
| JNum (n : Z)
| JStr (s : string)
| JArr (items : list json)
| JObj (fields : list (string * json)).

(** ** Python dictionaries *)

Module PyDict.
Section Assoc.
Variables K V : Type.
(** The key comparison of the dictionary ([==] on keys). *)
Variable keq : K -> K -> bool.

Definition t := list (K * V).

(** [d.get(k)] / [d[k]] *)
Fixpoint get (d : t) (k : K) : option V :=
  match d with
  | [] => None
  | (k', v) :: d' => if keq k k' then Some v else get d' k
  end.

(** [k in d] *)
Definition mem (d : t) (k : K) : bool :=
  match get d k with Some _ => true | None => false end.

(** [d[k] = v] *)
Fixpoint set (d : t) (k : K) (v : V) : t :=
  match d with
  | [] => [(k, v)]
  | (k', v') :: d' =>
      if keq k k' then (k', v) :: d' else (k', v') :: set d' k v
  end.

(** [del d[k]], the dictionary left by [d.pop(k)] *)
Fixpoint remove (d : t) (k : K) : t :=
  match d with
  | [] => []
  | (k', v') :: d' => if keq k k' then d' else (k', v') :: remove d' k
  end.

(** [{**d, **e}]: the items of [e] assigned into [d] in order. *)
Definition update (d e : t) : t :=
  fold_left (fun acc kv => set acc (fst kv) (snd kv)) e d.
End Assoc.
End PyDict.

(** A dictionary with string keys. *)
Definition dict (V : Type) : Type := PyDict.t string V.
Definition dict_get {V} (d : dict V) (k : string) : option V :=
  PyDict.get String.eqb d k.
Definition dict_mem {V} (d : dict V) (k : string) : bool :=
  PyDict.mem String.eqb d k.
Definition dict_set {V} (d : dict V) (k : string) (v : V) : dict V :=
  PyDict.set String.eqb d k v.
Definition dict_remove {V} (d : dict V) (k : string) : dict V :=
  PyDict.remove String.eqb d k.
Definition dict_update {V} (d e : dict V) : dict V :=
  PyDict.update String.eqb d e.

(** A document: the value stored under an activity name, and also what
    [find] and [find_one] hand out (the same with ["_id"] added). *)
Definition doc : Type := dict json.

(** The parsed content of the JSON file. *)
Definition store : Type := dict doc.

(** ** Python equality and membership on JSON values *)

(** [a == b] for values made by [json.loads]: [bool] is a subclass of
    [int], so [True == 1]; lists compare element by element; dictionaries
    compare as mappings, whatever the order of their items. *)
Fixpoint py_eq (a b : json) {struct a} : bool :=
  match a, b with
  | JNull, JNull => true
  | JBool x, JBool y => Bool.eqb x y
  | JBool x, JNum n => Z.eqb (if x then 1 else 0) n
  | JNum n, JBool y => Z.eqb n (if y then 1 else 0)
  | JNum n, JNum m => Z.eqb n m
  | JStr s, JStr u => String.eqb s u
  | JArr xs, JArr ys =>
      (fix all2 (xs ys : list json) {struct xs} : bool :=
         match xs, ys with
         | [], [] => true
         | x :: xs', y :: ys' => py_eq x y && all2 xs' ys'
         | _, _ => false
         end) xs ys
  | JObj xs, JObj ys =>
      Nat.eqb (length xs) (length ys) &&
      (fix sub (xs : list (string * json)) {struct xs} : bool :=
         match xs with
         | [] => true
         | (k, v) :: xs' =>
             match PyDict.get String.eqb ys k with
             | Some w => py_eq v w && sub xs'
             | None => false
             end
         end) xs
  | _, _ => false
  end.

(** [needle in hay] for two [str]: substring test. *)
Fixpoint str_contains (needle hay : string) : bool :=
  String.prefix needle hay ||
  match hay with
  | EmptyString => false
  | String _ hay' => str_contains needle hay'
  end.

(** ** What [json.dumps] writes *)

(** [sys.get_int_max_str_digits()], as the interpreter sets it. *)
Definition int_max_str_digits : Z := 4300.

(** The least number with more digits than that, [10 ** 4300]. *)
Definition int_str_bound : Z := Eval vm_compute in (10 ^ 4300)%Z.

(** [str(n)] succeeds: [n] has at most [int_max_str_digits] digits, the
    sign not counted. *)
Definition int_fits (n : Z) : bool := Z.ltb (Z.abs n) int_str_bound.

(** [json.dumps(v)] does not raise [ValueError]: every number in [v], at
    any depth, can be converted. *)
Fixpoint dumps_ok (v : json) : bool :=
  match v with
  | JNull | JBool _ | JStr _ => true
  | JNum n => int_fits n
  | JArr items => forallb dumps_ok items
  | JObj fields =>
      (fix all (xs : list (string * json)) : bool :=
         match xs with
         | [] => true
         | (_, x) :: xs' => dumps_ok x && all xs'
         end) fields
  end.

(** A string, [None], a [bool], or an [int] that can be converted. *)
Definition scalar (v : json) : bool :=
  match v with
  | JNull | JBool _ | JStr _ => true
  | JNum n => int_fits n
  | JArr _ | JObj _ => false
  end.

(** A scalar or a list of scalars: the values of the fields of an
    activity. *)
Definition flat (v : json) : bool :=
  match v with
  | JArr items => forallb scalar items
  | _ => scalar v
  end.

(** A document whose fields hold such values. *)
Definition flat_doc (d : list (string * json)) : bool :=
  forallb (fun kv => flat (snd kv)) d.

(** ** Exceptions and the monad of the program *)

Inductive exn : Type :=
| HTTPException (status_code : Z) (detail : string)
| KeyError
| TypeError
| AttributeError
| ValueError.

Inductive outcome (A : Type) : Type :=
| Return (a : A)
| Raise (e : exn).
Arguments Return {A} a.
Arguments Raise {A} e.

(** A computation reads and writes the file and returns or raises. *)
Definition M (A : Type) : Type := store -> outcome A * store.

Definition ret {A} (a : A) : M A := fun f => (Return a, f).
Definition raise {A} (e : exn) : M A := fun f => (Raise e, f).
Definition bind {A B} (m : M A) (k : A -> M B) : M B :=
  fun f => match m f with
           | (Return a, f') => k a f'
           | (Raise e, f') => (Raise e, f')
           end.
(** A pure step that may raise. *)
Definition lift {A} (o : outcome A) : M A := fun f => (o, f).

Declare Scope py_scope.
Delimit Scope py_scope with py.
Notation "x <- m ;; k" := (bind m (fun x => k))
  (at level 100, m at next level, right associativity) : py_scope.
Notation "m ;;; k" := (bind m (fun _ => k))
  (at level 100, right associativity) : py_scope.
Open Scope py_scope.

(** ** FileStorage *)

(** [type('Result', (), {'modified_count': n})()] *)
Record Result : Type := { modified_count : Z }.
(** [type('Result', (), {'inserted_id': _id})()] *)
Record InsertResult : Type := { inserted_id : json }.

(** [json.loads(self.file_path.read_text())] *)
Definition _read : M store := fun f => (Return f, f).
(** [self.file_path.write_text(json.dumps(data, indent=2))], where [data]
    is what [_read] returned with the values [added] put in by the caller:
    [json.dumps] raises [ValueError] if one of these cannot be written,
    and then the file is not touched. *)
Definition _write (added : list json) (data : store) : M unit :=
  fun f =>
    if forallb dumps_ok added then (Return tt, data)
    else (Raise ValueError, f).

(** [{"_id": k, **v}]: the key ["_id"] comes first; its value is [k]
    unless [v] has an ["_id"] item of its own, which then replaces [k];
    the other items of [v] follow in their order.  [with_id_display] below
    shows that this is the display evaluated item by item. *)
Definition with_id (k : json) (v : doc) : doc :=
  ("_id", match dict_get v "_id" with Some own => own | None => k end)
  :: dict_remove v "_id".

(** [query.get("_id")] *)
Definition query_id (query : dict json) : json :=
  match dict_get query "_id" with Some k => k | None => JNull end.

(** [_id in data] together with [data[_id]].  The keys of [data] are
    strings: a list or a dictionary is unhashable, any other value is
    hashable and equal to no key. *)
Definition lookup (data : store) (_id : json)
  : outcome (option (string * doc)) :=
  match _id with
  | JStr name =>
      match dict_get data name with
      | Some v => Return (Some (name, v))
      | None => Return None
      end
  | JArr _ | JObj _ => Raise TypeError
  | JNull | JBool _ | JNum _ => Return None
  end.

Definition find : M (list doc) :=
  data <- _read ;;
  ret (map (fun kv => with_id (JStr (fst kv)) (snd kv)) data).

Definition find_one (query : dict json) : M (option doc) :=
  data <- _read ;;
  let _id := query_id query in
  hit <- lift (lookup data _id) ;;
  match hit with
  | Some (_, v) => ret (Some (with_id _id v))
  | None => ret None
  end.

(** The [$push] loop on the document [d = data[_id]]:
    [if field not in d: d[field] = []] then [d[field].append(value)];
    only a list has [append]. *)
Fixpoint push_items (items : list (string * json)) (d : doc) : outcome doc :=
  match items with
  | [] => Return d
  | (field, value) :: rest =>
      let d1 := if dict_mem d field then d else dict_set d field (JArr []) in
      match dict_get d1 field with
      | Some (JArr l) =>
          push_items rest (dict_set d1 field (JArr (l ++ [value])))
      | _ => Raise AttributeError
      end
  end.

(** [l.remove(value)]: drops the first item equal to [value]; [None] is
    the [ValueError] of a list without such an item. *)
Fixpoint list_remove (value : json) (l : list json) : option (list json) :=
  match l with
  | [] => None
  | x :: l' =>
      if py_eq x value then Some l'
      else match list_remove value l' with
           | Some r => Some (x :: r)
           | None => None
           end
  end.

(** The [$pull] loop: [if field in d: d[field].remove(value)]. *)
Fixpoint pull_items (items : list (string * json)) (d : doc) : outcome doc :=
  match items with
  | [] => Return d
  | (field, value) :: rest =>
      match dict_get d field with
      | None => pull_items rest d
      | Some (JArr l) =>
          match list_remove value l with
          | Some l' => pull_items rest (dict_set d field (JArr l'))
          | None => Raise ValueError
          end
      | Some _ => Raise AttributeError
      end
  end.

(** The body of [update_one] between the look-up and [_write]. *)
Definition apply_update (update : dict (dict json)) (d : doc) : outcome doc :=
  match dict_get update "$push" with
  | Some items => push_items items d
  | None =>
      match dict_get update "$pull" with
      | Some items => pull_items items d
      | None => Return d
      end
  end.

(** The values an update appends: those of its [$push] entry. *)
Definition pushed (update : dict (dict json)) : list json :=
  match dict_get update "$push" with
  | Some items => map snd items
  | None => []
  end.

Definition update_one (query : dict json) (update : dict (dict json))
  : M Result :=
  data <- _read ;;
  let _id := query_id query in
  hit <- lift (lookup data _id) ;;
  match hit with
  | None => ret {| modified_count := 0 |}
  | Some (name, d) =>
      d' <- lift (apply_update update d) ;;
      _write (pushed update) (dict_set data name d') ;;;
      ret {| modified_count := 1 |}
  end.

(** The key under which [json.dumps] writes a dictionary key, which is the
    key [json.loads] reads back: a string is kept, [None], a [bool] and an
    [int] are spelled out, an [int] only if it can be converted; a list or
    a dictionary cannot be a key at all. *)
Definition json_key (k : json) : outcome string :=
  match k with
  | JStr s => Return s
  | JNull => Return "null"
  | JBool true => Return "true"
  | JBool false => Return "false"
  | JNum n =>
      if int_fits n then Return (NilZero.string_of_int (Z.to_int n))
      else Raise ValueError
  | JArr _ | JObj _ => Raise TypeError
  end.

(** [doc.pop("_id")] fails on a document without the key; [data[_id] = doc]
    adds a key that is new to [data] unless it is a string already there,
    and after [_write] the file holds it under its [json_key]. *)
Definition insert_one (d : doc) : M InsertResult :=
  data <- _read ;;
  match dict_get d "_id" with
  | None => raise KeyError
  | Some _id =>
      key <- lift (json_key _id) ;;
      _write (map snd (dict_remove d "_id"))
        (dict_set data key (dict_remove d "_id")) ;;;
      ret {| inserted_id := _id |}
  end.

(** [len(self._read())]: the query is not looked at. *)
Definition count_documents (query : dict json) : M nat :=
  data <- _read ;;
  ret (length data).

(** ** Seed data *)

Definition activity (description schedule : string) (max_participants : Z)
    (participants : list string) : doc :=
  [ ("description", JStr description);
    ("schedule", JStr schedule);
    ("max_participants", JNum max_participants);
    ("participants", JArr (map JStr participants)) ].

Definition initial_activities : dict doc :=
  [ ("Chess Club",
     activity "Learn strategies and compete in chess tournaments"
       "Fridays, 3:30 PM - 5:00 PM" 12
       ["michael@mergington.edu"; "daniel@mergington.edu"]);
    ("Programming Class",
     activity "Learn programming fundamentals and build software projects"
       "Tuesdays and Thursdays, 3:30 PM - 4:30 PM" 20
       ["emma@mergington.edu"; "sophia@mergington.edu"]);
    ("Gym Class",
     activity "Physical education and sports activities"
       "Mondays, Wednesdays, Fridays, 2:00 PM - 3:00 PM" 30
       ["john@mergington.edu"; "olivia@mergington.edu"]);
    ("Soccer Team",
     activity "Join the school soccer team and compete in matches"
       "Tuesdays and Thursdays, 4:00 PM - 5:30 PM" 22
       ["liam@mergington.edu"; "noah@mergington.edu"]);
    ("Basketball Team",
     activity "Practice basketball skills and participate in tournaments"
       "Wednesdays and Fridays, 3:30 PM - 5:00 PM" 15
       ["ava@mergington.edu"; "mia@mergington.edu"]);
    ("Art Club",
     activity "Explore various art techniques and create your own masterpieces"
       "Mondays, 3:30 PM - 5:00 PM" 15
       ["amelia@mergington.edu"; "isabella@mergington.edu"]);
    ("Drama Club",
     activity "Learn acting skills and participate in school plays"
       "Thursdays, 4:00 PM - 5:30 PM" 20
       ["lucas@mergington.edu"; "elijah@mergington.edu"]);
    ("Math Club",
     activity "Solve challenging math problems and prepare for competitions"
       "Wednesdays, 3:30 PM - 4:30 PM" 10
       ["charlotte@mergington.edu"; "harper@mergington.edu"]);
    ("Science Club",
     activity "Conduct experiments and explore scientific concepts"
       "Fridays, 4:00 PM - 5:30 PM" 12
       ["evelyn@mergington.edu"; "abigail@mergington.edu"]) ].

(** [for x in xs: body(x)] *)
Fixpoint for_each {A} (xs : list A) (body : A -> M unit) : M unit :=
  match xs with
  | [] => ret tt
  | x :: xs' => body x ;;; for_each xs' body
  end.

Definition init_db : M unit :=
  n <- count_documents [] ;;
  if Nat.eqb n 0 then
    for_each initial_activities (fun item =>
      insert_one (with_id (JStr (fst item)) (snd item)) ;;; ret tt)
  else ret tt.

(** ** The handlers *)

(** What a handler returns: a dictionary whose keys are whatever the code
    used as keys, compared as Python compares them. *)
Definition response : Type := PyDict.t json doc.

(** A list or a dictionary cannot be used as a dictionary key. *)
Definition hashable (k : json) : bool :=
  match k with
  | JArr _ | JObj _ => false
  | _ => true
  end.

(** The loop of [get_activities]: [activity_name = doc.pop("_id")] then
    [activities[activity_name] = doc]. *)
Fixpoint collect (docs : list doc) (activities : response)
  : outcome response :=
  match docs with
  | [] => Return activities
  | d :: rest =>
      match dict_get d "_id" with
      | None => Raise KeyError
      | Some activity_name =>
          if hashable activity_name then
            collect rest
              (PyDict.set py_eq activities activity_name (dict_remove d "_id"))
          else Raise TypeError
      end
  end.

Definition get_activities : M response :=
  docs <- find ;;
  lift (collect docs []).

(** [d[k]] *)
Definition getitem (d : doc) (k : string) : outcome json :=
  match dict_get d k with
  | Some v => Return v
  | None => Raise KeyError
  end.

(** [email in c] for a [str] email: membership in a list, substring of a
    string, key of a dictionary; nothing else is a container. *)
Definition str_in (email : string) (c : json) : outcome bool :=
  match c with
  | JArr l => Return (existsb (fun x => py_eq x (JStr email)) l)
  | JStr s => Return (str_contains email s)
  | JObj o => Return (dict_mem o email)
  | JNull | JBool _ | JNum _ => Raise TypeError
  end.

(** In both handlers [not activity] holds of [None] and of the empty
    dictionary, the two cases sent to 404. *)
Definition signup_for_activity (activity_name email : string) : M doc :=
  activity <- find_one [("_id", JStr activity_name)] ;;
  match activity with
  | Some (item :: items) =>
      participants <- lift (getitem (item :: items) "participants") ;;
      present <- lift (str_in email participants) ;;
      if present then
        raise (HTTPException 400 "Student is already signed up")
      else
        result <- update_one [("_id", JStr activity_name)]
                    [("$push", [("participants", JStr email)])] ;;
        if Z.eqb (modified_count result) 0 then
          raise (HTTPException 500 "Failed to sign up student")
        else
          ret [("message",
                JStr ("Signed up " ++ email ++ " for " ++ activity_name))]
  | _ => raise (HTTPException 404 "Activity not found")
  end.

Definition unregister_from_activity (activity_name email : string) : M doc :=
  activity <- find_one [("_id", JStr activity_name)] ;;
  match activity with
  | Some (item :: items) =>
      participants <- lift (getitem (item :: items) "participants") ;;
      present <- lift (str_in email participants) ;;
      if negb present then
        raise (HTTPException 400 "Student is not signed up for this activity")
      else
        result <- update_one [("_id", JStr activity_name)]
                    [("$pull", [("participants", JStr email)])] ;;
        if Z.eqb (modified_count result) 0 then
          raise (HTTPException 500 "Failed to unregister student")
        else
          ret [("message",
                JStr ("Unregistered " ++ email ++ " from " ++ activity_name))]
  | _ => raise (HTTPException 404 "Activity not found")
  end.

(** The status the client sees: 200 for a returned value, the status of an
    [HTTPException], 500 for any other exception. *)
Definition status {A} (o : outcome A) : Z :=
  match o with
  | Return _ => 200
  | Raise (HTTPException code _) => code
  | Raise _ => 500
  end.

(** ** Sequences of calls *)

Inductive request : Type :=
| Signup (activity_name email : string)
| Unregister (activity_name email : string).

Definition handle (r : request) : M doc :=
  match r with
  | Signup n e => signup_for_activity n e
  | Unregister n e => unregister_from_activity n e
  end.

(** The file after a sequence of calls, whatever each of them answered. *)
Fixpoint run (rs : list request) (f : store) : store :=
  match rs with
  | [] => f
  | r :: rs' => run rs' (snd (handle r f))
  end.

(** The file a fresh installation starts from: [_ensure_file_exists] wrote
    [{}] and [init_db] ran. *)
Definition seeded : store := snd (init_db []).

(** ** Observations used in the statements *)

(** The participants list of the activity stored under [name], when there
    is such an activity and its ["participants"] field is a list. *)
Definition participants_of (f : store) (name : string) : option (list json) :=
  match dict_get f name with
  | Some d =>
      match dict_get d "participants" with
      | Some (JArr ps) => Some ps
      | _ => None
      end
  | None => None
  end.

(** [l.count(x)] *)
Definition py_count (x : json) (l : list json) : nat :=
  length (filter (fun y => py_eq y x) l).

(** The query [{"_id": name}]. *)
Definition by_name (name : string) : dict json := [("_id", JStr name)].

(** The two confirmations. *)
Definition signed_up (email name : string) : doc :=
  [("message", JStr ("Signed up " ++ email ++ " for " ++ name))].
Definition unregistered (email name : string) : doc :=
  [("message", JStr ("Unregistered " ++ email ++ " from " ++ name))].

(** The first seed activity as [init_db] stores it. *)
Definition chess_club : doc :=
  activity "Learn strategies and compete in chess tournaments"
    "Fridays, 3:30 PM - 5:00 PM" 12
    ["michael@mergington.edu"; "daniel@mergington.edu"].

(** A club for two that is full. *)
Definition full_club : store :=
  [("Duet", activity "Sing in pairs" "Mondays" 2
              ["ava@mergington.edu"; "mia@mergington.edu"])].

(** [update_one] answering every add-to-list and remove-from-list with a
    modified-count: 1 when the record is there, 0 when it is not. *)
Definition update_one_always_counts : Prop :=
  forall (f : store) (name op field : string) (value : json),
    op = "$push" \/ op = "$pull" ->
    exists f',
      update_one (by_name name) [(op, [(field, value)])] f =
      (Return {| modified_count := if dict_mem f name then 1 else 0 |}, f').

(** The mapping the handler builds from a file: each name with its
    document. *)
Definition listing (f : store) : response :=
  map (fun kv => (JStr (fst kv), snd kv)) f.

(** A file as the program writes it: no activity name twice, and no
    document with an ["_id"] field of its own. *)
Definition plain_store (f : store) : Prop :=
  NoDup (map fst f) /\
  Forall (fun kv => dict_get (snd kv) "_id" = None) f.

(** The participants of a document are a list of strings without
    duplicates. *)
Definition unique_emails (d : doc) : Prop :=
  exists emails : list string,
    dict_get d "participants" = Some (JArr (map JStr emails)) /\
    NoDup emails.

Definition all_unique (f : store) : Prop :=
  Forall (fun kv => unique_emails (snd kv)) f.

(** ** Start-up *)

(** The file on disk before the program starts: [None] when it is not
    there.  [_ensure_file_exists] writes [{}] into a missing file and
    leaves an existing one alone. *)
Definition _ensure_file_exists (file : option store) : store :=
  match file with
  | None => []
  | Some f => f
  end.

(** Loading the module: [activities_collection = FileStorage(...)] and
    then [init_db()]. *)
Definition startup (file : option store) : outcome unit * store :=
  init_db (_ensure_file_exists file).

Unset Implicit Arguments.

(** * Facts about dictionaries *)

Section DictFacts.
Context {V : Type}.
Implicit Types (d : dict V) (k : string) (v : V).

Lemma dict_get_cons d k k' v :
  dict_get ((k', v) :: d) k = if String.eqb k k' then Some v else dict_get d k.
Proof. reflexivity. Qed.

Lemma dict_mem_get d k :
  dict_mem d k = match dict_get d k with Some _ => true | None => false end.
Proof. reflexivity. Qed.

Lemma dict_set_cons d k k' v v' :
  dict_set ((k', v') :: d) k v =
  if String.eqb k k' then (k', v) :: d else (k', v') :: dict_set d k v.
Proof. reflexivity. Qed.

Lemma dict_remove_cons d k k' v' :
  dict_remove ((k', v') :: d) k =
  if String.eqb k k' then d else (k', v') :: dict_remove d k.
Proof. reflexivity. Qed.

Lemma dict_get_set_eq d k v : dict_get (dict_set d k v) k = Some v.
Proof.
  unfold dict_get, dict_set.
  induction d as [|[k' v'] d IH]; simpl.
  - now rewrite String.eqb_refl.
  - destruct (String.eqb_spec k k') as [->|Hne]; simpl.
    + now rewrite String.eqb_refl.
    + destruct (String.eqb_spec k k'); [contradiction|exact IH].
Qed.

Lemma dict_get_set_neq d k k' v :
  k <> k' -> dict_get (dict_set d k v) k' = dict_get d k'.
Proof.
  unfold dict_get, dict_set. intros Hne.
  induction d as [|[k0 v0] d IH]; simpl.
  - destruct (String.eqb_spec k' k); [congruence|reflexivity].
  - destruct (String.eqb_spec k k0) as [->|Hk]; simpl.
    + destruct (String.eqb_spec k' k0); [congruence|reflexivity].
    + destruct (String.eqb_spec k' k0); [reflexivity|exact IH].
Qed.

Lemma dict_get_remove_neq d k k' :
  k <> k' -> dict_get (dict_remove d k) k' = dict_get d k'.
Proof.
  unfold dict_get, dict_remove. intros Hne.
  induction d as [|[k0 v0] d IH]; simpl; [reflexivity|].
  destruct (String.eqb_spec k k0) as [->|Hk]; simpl.
  - destruct (String.eqb_spec k' k0); [congruence|reflexivity].
  - destruct (String.eqb_spec k' k0); [reflexivity|exact IH].
Qed.

Lemma dict_remove_absent d k : dict_get d k = None -> dict_remove d k = d.
Proof.
  unfold dict_get, dict_remove.
  induction d as [|[k0 v0] d IH]; simpl; [reflexivity|].
  destruct (String.eqb_spec k k0); [discriminate|].
  intros H. now rewrite IH.
Qed.

Lemma dict_get_In d k v : dict_get d k = Some v -> In (k, v) d.
Proof.
  unfold dict_get.
  induction d as [|[k0 v0] d IH]; simpl; [discriminate|].
  destruct (String.eqb_spec k k0) as [->|Hk].
  - intros [= ->]. now left.
  - intros H. right. now apply IH.
Qed.

Lemma dict_get_None_keys d k : dict_get d k = None <-> ~ In k (map fst d).
Proof.
  unfold dict_get.
  induction d as [|[k0 v0] d IH]; simpl; [tauto|].
  destruct (String.eqb_spec k k0) as [->|Hk].
  - split; [discriminate|]. intros H. exfalso. apply H. now left.
  - rewrite IH. split; [intros H [E|I]; [congruence|tauto]|tauto].
Qed.

Lemma dict_get_NoDup d k v :
  NoDup (map fst d) -> In (k, v) d -> dict_get d k = Some v.
Proof.
  unfold dict_get.
  induction d as [|[k0 v0] d IH]; simpl; [tauto|].
  intros Hnd [E|I].
  - injection E as -> ->. now rewrite String.eqb_refl.
  - inversion Hnd as [|? ? Hnot Hnd']; subst.
    destruct (String.eqb_spec k k0) as [->|Hk].
    + exfalso. apply Hnot. now apply (in_map fst) in I.
    + now apply IH.
Qed.

Lemma dict_set_absent d k v :
  ~ In k (map fst d) -> dict_set d k v = d ++ [(k, v)].
Proof.
  unfold dict_set.
  induction d as [|[k0 v0] d IH]; simpl; [reflexivity|].
  intros H. destruct (String.eqb_spec k k0) as [->|Hk]; [tauto|].
  rewrite IH; tauto.
Qed.

(** An assignment keeps a property that holds of every stored value and
    of the assigned one. *)
Lemma Forall_dict_set (P : V -> Prop) d k v :
  Forall (fun kv => P (snd kv)) d -> P v ->
  Forall (fun kv => P (snd kv)) (dict_set d k v).
Proof.
  unfold dict_set. intros Hd Hv.
  induction Hd as [|[k0 v0] d H0 Hd IH]; simpl.
  - now constructor.
  - destruct (String.eqb k k0); constructor; auto.
Qed.

Lemma Forall_dict_get (P : V -> Prop) d k v :
  Forall (fun kv => P (snd kv)) d -> dict_get d k = Some v -> P v.
Proof.
  intros Hd Hg. apply dict_get_In in Hg.
  rewrite Forall_forall in Hd. exact (Hd _ Hg).
Qed.
(** Assigning the value that is already there changes nothing. *)
Lemma dict_set_same d k v : dict_get d k = Some v -> dict_set d k v = d.
Proof.
  induction d as [|[k0 v0] d IH]; [discriminate|].
  rewrite dict_get_cons, dict_set_cons.
  destruct (String.eqb k k0).
  - now intros [= ->].
  - intros H. now rewrite IH.
Qed.

(** Of two assignments to a key the second one counts. *)
Lemma dict_set_set d k v v' :
  dict_set (dict_set d k v) k v' = dict_set d k v'.
Proof.
  induction d as [|[k0 v0] d IH].
  - cbn. now rewrite String.eqb_refl.
  - rewrite !dict_set_cons.
    destruct (String.eqb k k0) eqn:E; rewrite dict_set_cons, E.
    + reflexivity.
    + now rewrite IH.
Qed.

(** An assignment to a key that is there keeps the keys. *)
Lemma dict_set_keys d k v v0 :
  dict_get d k = Some v0 -> map fst (dict_set d k v) = map fst d.
Proof.
  induction d as [|[k1 v1] d IH]; [discriminate|].
  rewrite dict_get_cons, dict_set_cons.
  destruct (String.eqb k k1); [reflexivity|].
  intros H. cbn [map fst]. now rewrite IH.
Qed.

Lemma dict_remove_In d k k' v :
  In (k', v) (dict_remove d k) -> In (k', v) d.
Proof.
  induction d as [|[k0 v0] d IH]; [intros []|].
  rewrite dict_remove_cons. destruct (String.eqb k k0).
  - intros H. now right.
  - intros [H|H]; [now left|right; now apply IH].
Qed.

(** In a dictionary a removed key is gone. *)
Lemma dict_get_remove_eq d k :
  NoDup (map fst d) -> dict_get (dict_remove d k) k = None.
Proof.
  induction d as [|[k0 v0] d IH]; [reflexivity|].
  intros Hnd. inversion Hnd as [|? ? Hk0 Hnd']; subst.
  rewrite dict_remove_cons.
  destruct (String.eqb_spec k k0) as [->|Hne].
  - now apply dict_get_None_keys.
  - rewrite dict_get_cons.
    destruct (String.eqb_spec k k0); [contradiction|now apply IH].
Qed.
End DictFacts.

(** The display [{"_id": k, **v}], evaluated item by item, is [with_id]
    on a dictionary (an association list with no key twice). *)
Lemma dict_update_id (v : doc) : forall (x : json) (pre : doc),
  NoDup (map fst v) ->
  ~ In "_id" (map fst pre) ->
  (forall key, In key (map fst v) -> ~ In key (map fst pre)) ->
  dict_update (("_id", x) :: pre) v =
  ("_id", match dict_get v "_id" with Some own => own | None => x end)
  :: pre ++ dict_remove v "_id".
Proof.
  induction v as [|[k1 v1] v IH]; intros x pre Hnd Hpre Hdisj.
  - cbn. now rewrite app_nil_r.
  - inversion Hnd as [|? ? Hk1 Hnd']; subst.
    change (dict_update (("_id", x) :: pre) ((k1, v1) :: v))
      with (dict_update (dict_set (("_id", x) :: pre) k1 v1) v).
    rewrite dict_set_cons, dict_get_cons, dict_remove_cons.
    destruct (String.eqb_spec k1 "_id") as [->|Hne].
    + rewrite String.eqb_refl.
      rewrite (IH v1 pre Hnd' Hpre).
      * apply dict_get_None_keys in Hk1. rewrite Hk1.
        now rewrite dict_remove_absent.
      * intros key Hkey. apply Hdisj. now right.
    + destruct (String.eqb_spec "_id" k1) as [E|_]; [congruence|].
      rewrite dict_set_absent by (apply Hdisj; now left).
      rewrite (IH x (pre ++ [(k1, v1)]) Hnd').
      * now rewrite <- app_assoc.
      * rewrite map_app, in_app_iff. cbn. intros [H|[H|[]]]; congruence.
      * intros key Hkey. rewrite map_app, in_app_iff. cbn.
        intros [H|[H|[]]].
        -- apply (Hdisj key); [now right|exact H].
        -- subst. contradiction.
Qed.

Lemma with_id_display (k : json) (v : doc) :
  NoDup (map fst v) -> with_id k v = dict_update [("_id", k)] v.
Proof.
  intros Hnd. rewrite (dict_update_id v k []); auto.
Qed.

(** * Facts about Python equality, membership and removal *)

Lemma py_eq_str (x : json) (e : string) : py_eq x (JStr e) = true <-> x = JStr e.
Proof.
  destruct x; cbn; try (split; [discriminate|discriminate]).
  rewrite String.eqb_eq. split; [now intros ->|now intros [= ->]].
Qed.

Lemma py_eq_str_false (x : json) (e : string) :
  py_eq x (JStr e) = false <-> x <> JStr e.
Proof.
  rewrite <- py_eq_str. destruct (py_eq x (JStr e)); split; congruence.
Qed.

Lemma existsb_str_In (l : list json) (e : string) :
  existsb (fun x => py_eq x (JStr e)) l = true <-> In (JStr e) l.
Proof.
  rewrite existsb_exists. split.
  - intros (x & Hx & Heq). apply py_eq_str in Heq. now subst.
  - intros H. exists (JStr e). split; [exact H|]. now apply py_eq_str.
Qed.

Lemma str_in_list (l : list json) (e : string) :
  str_in e (JArr l) = Return true <-> In (JStr e) l.
Proof.
  cbn. rewrite <- existsb_str_In.
  split; [now intros [= ->]|now intros ->].
Qed.

Lemma str_in_list_false (l : list json) (e : string) :
  str_in e (JArr l) = Return false <-> ~ In (JStr e) l.
Proof.
  cbn. rewrite <- existsb_str_In.
  destruct (existsb _ l); split; congruence.
Qed.

Lemma py_count_absent (l : list json) (e : string) :
  ~ In (JStr e) l -> py_count (JStr e) l = 0.
Proof.
  unfold py_count. induction l as [|x l IH]; cbn [filter]; [reflexivity|].
  intros H. destruct (py_eq x (JStr e)) eqn:E.
  - apply py_eq_str in E. subst. exfalso. apply H. now left.
  - apply IH. intros I. apply H. now right.
Qed.

Lemma py_count_app (x : json) (l r : list json) :
  py_count x (l ++ r) = py_count x l + py_count x r.
Proof. unfold py_count. now rewrite filter_app, length_app. Qed.

Lemma py_count_one (e : string) : py_count (JStr e) [JStr e] = 1.
Proof.
  unfold py_count. cbn [filter].
  now rewrite (proj2 (py_eq_str (JStr e) e) eq_refl).
Qed.

(** [remove] takes out the first equal item and nothing else. *)
Lemma list_remove_first (l : list json) (e : string) :
  In (JStr e) l ->
  exists before after,
    l = before ++ JStr e :: after /\
    ~ In (JStr e) before /\
    list_remove (JStr e) l = Some (before ++ after).
Proof.
  induction l as [|x l IH]; [intros []|].
  intros H. cbn [list_remove].
  destruct (py_eq x (JStr e)) eqn:E.
  - apply py_eq_str in E. subst.
    exists [], l. cbn. tauto.
  - apply py_eq_str_false in E.
    destruct H as [H|H]; [congruence|].
    destruct (IH H) as (b & a & -> & Hb & ->).
    exists (x :: b), a. cbn. intuition congruence.
Qed.

Lemma list_remove_found (value : json) (l : list json) :
  existsb (fun x => py_eq x value) l = true ->
  exists l', list_remove value l = Some l' /\ length l = S (length l').
Proof.
  induction l as [|x l IH]; cbn [existsb list_remove]; [discriminate|].
  destruct (py_eq x value); cbn [orb].
  - intros _. now exists l.
  - intros H. destruct (IH H) as (l' & -> & Hlen).
    exists (x :: l'). cbn. now rewrite Hlen.
Qed.

Lemma list_remove_missing (value : json) (l : list json) :
  existsb (fun x => py_eq x value) l = false -> list_remove value l = None.
Proof.
  induction l as [|x l IH]; cbn [existsb list_remove]; [reflexivity|].
  destruct (py_eq x value); cbn [orb]; [discriminate|].
  intros H. now rewrite IH.
Qed.

(** Removal from a list of strings leaves a list of strings, and one
    without duplicates if the list had none. *)
Lemma list_remove_strings (emails : list string) (e : string) (r : list json) :
  list_remove (JStr e) (map JStr emails) = Some r ->
  exists emails',
    r = map JStr emails' /\
    (forall x, In x emails' -> In x emails) /\
    (NoDup emails -> NoDup emails').
Proof.
  revert r. induction emails as [|x emails IH]; intros r; cbn [map list_remove].
  - discriminate.
  - destruct (py_eq (JStr x) (JStr e)).
    + intros [= <-]. exists emails. split; [reflexivity|].
      split; [intros y Hy; now right|].
      intros Hnd. now inversion Hnd.
    + destruct (list_remove (JStr e) (map JStr emails)) as [r'|]; [|discriminate].
      intros [= <-]. destruct (IH r' eq_refl) as (emails' & -> & Hsub & Hnd').
      exists (x :: emails'). split; [reflexivity|].
      split.
      * intros y [->|Hy]; [now left|right; now apply Hsub].
      * intros Hnd. inversion Hnd as [|? ? Hx Hnd0]; subst.
        constructor; [|now apply Hnd'].
        intros Hin. apply Hx. now apply Hsub.
Qed.

Lemma scalar_dumps_ok (v : json) : scalar v = true -> dumps_ok v = true.
Proof. destruct v; cbn [scalar dumps_ok]; congruence. Qed.

Lemma flat_dumps_ok (v : json) : flat v = true -> dumps_ok v = true.
Proof.
  destruct v as [| | | |items|]; try apply scalar_dumps_ok.
  cbn [flat dumps_ok]. rewrite !forallb_forall.
  intros H x Hx. apply scalar_dumps_ok. now apply H.
Qed.

Lemma int_str_bound_eq : int_str_bound = (10 ^ int_max_str_digits)%Z.
Proof. vm_compute. reflexivity. Qed.

(** * The storage operations and the handlers as equations *)

Lemma dict_get_with_id (k : json) (v : doc) (field : string) :
  field <> "_id" -> dict_get (with_id k v) field = dict_get v field.
Proof.
  intros Hne. unfold with_id. rewrite dict_get_cons.
  destruct (String.eqb_spec field "_id"); [contradiction|].
  apply dict_get_remove_neq. congruence.
Qed.

Lemma find_one_by_name (f : store) (name : string) :
  find_one (by_name name) f =
  (Return (option_map (with_id (JStr name)) (dict_get f name)), f).
Proof.
  unfold find_one, bind, _read, lift, ret, by_name, query_id, lookup.
  cbn [dict_get PyDict.get String.eqb Ascii.eqb Bool.eqb].
  fold (dict_get f name).
  now destruct (dict_get f name).
Qed.

Lemma update_one_by_name (f : store) (name : string) (update : dict (dict json)) :
  update_one (by_name name) update f =
  match dict_get f name with
  | None => (Return {| modified_count := 0 |}, f)
  | Some d =>
      match apply_update update d with
      | Return d' =>
          if forallb dumps_ok (pushed update) then
            (Return {| modified_count := 1 |}, dict_set f name d')
          else (Raise ValueError, f)
      | Raise e => (Raise e, f)
      end
  end.
Proof.
  unfold update_one, bind, _read, _write, lift, ret, by_name, query_id, lookup.
  cbn [dict_get PyDict.get String.eqb Ascii.eqb Bool.eqb].
  fold (dict_get f name).
  destruct (dict_get f name) as [d|]; [|reflexivity].
  destruct (apply_update update d); [|reflexivity].
  now destruct (forallb dumps_ok (pushed update)).
Qed.

(** The sign-up handler, case by case. *)
Lemma signup_for_activity_eq (f : store) (name email : string) :
  signup_for_activity name email f =
  match dict_get f name with
  | None => (Raise (HTTPException 404 "Activity not found"), f)
  | Some d =>
      match getitem d "participants" with
      | Raise e => (Raise e, f)
      | Return c =>
          match str_in email c with
          | Raise e => (Raise e, f)
          | Return true =>
              (Raise (HTTPException 400 "Student is already signed up"), f)
          | Return false =>
              match push_items [("participants", JStr email)] d with
              | Raise e => (Raise e, f)
              | Return d' => (Return (signed_up email name), dict_set f name d')
              end
          end
      end
  end.
Proof.
  unfold signup_for_activity.
  change [("_id", JStr name)] with (by_name name).
  unfold bind at 1. rewrite find_one_by_name.
  destruct (dict_get f name) as [d|] eqn:Hd; [|reflexivity].
  cbn [option_map]. unfold with_id at 1.
  fold (with_id (JStr name) d).
  unfold bind at 1. unfold lift at 1. unfold getitem.
  rewrite dict_get_with_id by discriminate.
  destruct (dict_get d "participants") as [c|]; [|reflexivity].
  unfold bind at 1. unfold lift at 1.
  destruct (str_in email c) as [[|]|e]; [reflexivity| |reflexivity].
  unfold bind at 1. rewrite update_one_by_name, Hd.
  change (apply_update [("$push", [("participants", JStr email)])] d)
    with (push_items [("participants", JStr email)] d).
  now destruct (push_items [("participants", JStr email)] d).
Qed.

(** The unregister handler, case by case. *)
Lemma unregister_from_activity_eq (f : store) (name email : string) :
  unregister_from_activity name email f =
  match dict_get f name with
  | None => (Raise (HTTPException 404 "Activity not found"), f)
  | Some d =>
      match getitem d "participants" with
      | Raise e => (Raise e, f)
      | Return c =>
          match str_in email c with
          | Raise e => (Raise e, f)
          | Return false =>
              (Raise (HTTPException 400
                        "Student is not signed up for this activity"), f)
          | Return true =>
              match pull_items [("participants", JStr email)] d with
              | Raise e => (Raise e, f)
              | Return d' =>
                  (Return (unregistered email name), dict_set f name d')
              end
          end
      end
  end.
Proof.
  unfold unregister_from_activity.
  change [("_id", JStr name)] with (by_name name).
  unfold bind at 1. rewrite find_one_by_name.
  destruct (dict_get f name) as [d|] eqn:Hd; [|reflexivity].
  cbn [option_map]. unfold with_id at 1.
  fold (with_id (JStr name) d).
  unfold bind at 1. unfold lift at 1. unfold getitem.
  rewrite dict_get_with_id by discriminate.
  destruct (dict_get d "participants") as [c|]; [|reflexivity].
  unfold bind at 1. unfold lift at 1.
  destruct (str_in email c) as [[|]|e]; [|reflexivity|reflexivity].
  cbn [negb].
  unfold bind at 1. rewrite update_one_by_name, Hd.
  change (apply_update [("$pull", [("participants", JStr email)])] d)
    with (pull_items [("participants", JStr email)] d).
  now destruct (pull_items [("participants", JStr email)] d).
Qed.

(** Appending to a field that holds a list, or to a missing field. *)
Lemma push_items_list (d : doc) (field : string) (value : json) (l : list json) :
  dict_get d field = Some (JArr l) ->
  push_items [(field, value)] d =
  Return (dict_set d field (JArr (l ++ [value]))).
Proof.
  intros H. cbn [push_items]. rewrite dict_mem_get, H. now rewrite H.
Qed.

Lemma push_items_missing (d : doc) (field : string) (value : json) :
  dict_get d field = None ->
  push_items [(field, value)] d =
  Return (dict_set (dict_set d field (JArr [])) field (JArr [value])).
Proof.
  intros H. cbn [push_items]. rewrite dict_mem_get, H.
  now rewrite dict_get_set_eq.
Qed.

Lemma pull_items_list (d : doc) (field : string) (value : json)
    (l : list json) :
  dict_get d field = Some (JArr l) ->
  pull_items [(field, value)] d =
  match list_remove value l with
  | Some l' => Return (dict_set d field (JArr l'))
  | None => Raise ValueError
  end.
Proof.
  intros H. cbn [pull_items]. rewrite H.
  now destruct (list_remove value l).
Qed.

Lemma pull_items_missing (d : doc) (field : string) (value : json) :
  dict_get d field = None -> pull_items [(field, value)] d = Return d.
Proof. intros H. cbn [pull_items]. now rewrite H. Qed.

Lemma push_items_not_list (d : doc) (field : string) (value c : json) :
  dict_get d field = Some c ->
  (forall l, c <> JArr l) ->
  push_items [(field, value)] d = Raise AttributeError.
Proof.
  intros H Hc. cbn [push_items]. rewrite dict_mem_get, H, H.
  destruct c; try reflexivity. now destruct (Hc items).
Qed.

Lemma pull_items_not_list (d : doc) (field : string) (value c : json) :
  dict_get d field = Some c ->
  (forall l, c <> JArr l) ->
  pull_items [(field, value)] d = Raise AttributeError.
Proof.
  intros H Hc. cbn [pull_items]. rewrite H.
  destruct c; try reflexivity. now destruct (Hc items).
Qed.

Lemma participants_of_Some (f : store) (name : string) (ps : list json) :
  participants_of f name = Some ps <->
  exists d, dict_get f name = Some d /\
            dict_get d "participants" = Some (JArr ps).
Proof.
  unfold participants_of. split.
  - destruct (dict_get f name) as [d|] eqn:Hd; [|discriminate].
    destruct (dict_get d "participants") as [[]|] eqn:Hp; try discriminate.
    intros [= ->]. now exists d.
  - intros (d & -> & ->). reflexivity.
Qed.

Lemma participants_of_set (f : store) (name : string) (d : doc)
    (ps : list json) :
  participants_of (dict_set f name (dict_set d "participants" (JArr ps))) name
  = Some ps.
Proof.
  unfold participants_of. now rewrite !dict_get_set_eq.
Qed.

(** What a sign-up does to the file: nothing, or one append to the list
    of an activity that did not hold the email. *)
Lemma signup_store (f : store) (name email : string) :
  snd (signup_for_activity name email f) = f \/
  exists d ps,
    dict_get f name = Some d /\
    dict_get d "participants" = Some (JArr ps) /\
    ~ In (JStr email) ps /\
    snd (signup_for_activity name email f) =
    dict_set f name (dict_set d "participants" (JArr (ps ++ [JStr email]))).
Proof.
  rewrite signup_for_activity_eq.
  destruct (dict_get f name) as [d|] eqn:Hd; [|now left].
  unfold getitem.
  destruct (dict_get d "participants") as [c|] eqn:Hp; [|now left].
  destruct (str_in email c) as [[|]|e] eqn:Hin; [now left| |now left].
  destruct c as [| | | |ps|];
    try (rewrite (push_items_not_list d "participants" (JStr email) _ Hp)
           by discriminate; now left).
  right. exists d, ps. repeat split; try assumption.
  - now apply str_in_list_false.
  - now rewrite (push_items_list d "participants" (JStr email) ps Hp).
Qed.

(** What an unregistration does to the file: nothing, or one removal from
    the list of an activity. *)
Lemma unregister_store (f : store) (name email : string) :
  snd (unregister_from_activity name email f) = f \/
  exists d ps ps',
    dict_get f name = Some d /\
    dict_get d "participants" = Some (JArr ps) /\
    list_remove (JStr email) ps = Some ps' /\
    snd (unregister_from_activity name email f) =
    dict_set f name (dict_set d "participants" (JArr ps')).
Proof.
  rewrite unregister_from_activity_eq.
  destruct (dict_get f name) as [d|] eqn:Hd; [|now left].
  unfold getitem.
  destruct (dict_get d "participants") as [c|] eqn:Hp; [|now left].
  destruct (str_in email c) as [[|]|e] eqn:Hin; [|now left|now left].
  destruct c as [| | | |ps|];
    try (rewrite (pull_items_not_list d "participants" (JStr email) _ Hp)
           by discriminate; now left).
  rewrite (pull_items_list d "participants" (JStr email) ps Hp).
  destruct (list_remove (JStr email) ps) as [ps'|] eqn:Hrm; [|now left].
  right. now exists d, ps, ps'.
Qed.

(** * The sign-up and unregister handlers *)

(** C1. For every stored activity whose participants field is the list
    [ps] and every email that is not in [ps], the sign-up handler returns
    the message "Signed up {email} for {activity_name}" and writes the
    file in which that activity's participants are [ps] followed by the
    email, so that the email occurs in them exactly once; the other fields
    of the activity and the other activities are as before. *)
Theorem signup_new_email_succeeds
    (f : store) (name email : string) (d : doc) (ps : list json) :
  dict_get f name = Some d ->
  dict_get d "participants" = Some (JArr ps) ->
  ~ In (JStr email) ps ->
  let f' := dict_set f name (dict_set d "participants" (JArr (ps ++ [JStr email]))) in
  signup_for_activity name email f =
    (Return [("message", JStr ("Signed up " ++ email ++ " for " ++ name))], f')
  /\ participants_of f' name = Some (ps ++ [JStr email])
  /\ py_count (JStr email) (ps ++ [JStr email]) = 1
  /\ (forall other, other <> name -> dict_get f' other = dict_get f other).
Proof.
  intros Hd Hp Hnew f'. repeat split.
  - rewrite signup_for_activity_eq, Hd. unfold getitem. rewrite Hp.
    rewrite (proj2 (str_in_list_false ps email) Hnew).
    now rewrite (push_items_list d "participants" (JStr email) ps Hp).
  - apply participants_of_set.
  - rewrite py_count_app, py_count_absent, py_count_one by assumption.
    reflexivity.
  - intros other Hne. apply dict_get_set_neq. congruence.
Qed.

Lemma signup_new_email_succeeds_witness :
  let f' := dict_set seeded "Chess Club"
              (dict_set chess_club "participants"
                 (JArr [JStr "michael@mergington.edu";
                        JStr "daniel@mergington.edu";
                        JStr "new@mergington.edu"])) in
  signup_for_activity "Chess Club" "new@mergington.edu" seeded =
    (Return [("message", JStr "Signed up new@mergington.edu for Chess Club")],
     f')
  /\ participants_of f' "Chess Club" =
       Some [JStr "michael@mergington.edu"; JStr "daniel@mergington.edu";
             JStr "new@mergington.edu"]
  /\ py_count (JStr "new@mergington.edu")
       [JStr "michael@mergington.edu"; JStr "daniel@mergington.edu";
        JStr "new@mergington.edu"] = 1
  /\ (forall other, other <> "Chess Club" ->
        dict_get f' other = dict_get seeded other).
Proof.
  apply (signup_new_email_succeeds seeded "Chess Club" "new@mergington.edu"
           chess_club
           [JStr "michael@mergington.edu"; JStr "daniel@mergington.edu"]).
  - reflexivity.
  - reflexivity.
  - intros [H|[H|[]]]; discriminate H.
Defined.

(** C3. For every stored activity whose participants field is a list that
    already holds the email, the sign-up handler raises the 400 exception
    "Student is already signed up" and the file is left as it was. *)
Theorem signup_present_email_rejected
    (f : store) (name email : string) (ps : list json) :
  participants_of f name = Some ps ->
  In (JStr email) ps ->
  signup_for_activity name email f =
    (Raise (HTTPException 400 "Student is already signed up"), f)
  /\ status (fst (signup_for_activity name email f)) = 400%Z
  /\ snd (signup_for_activity name email f) = f.
Proof.
  intros Hps Hin.
  apply participants_of_Some in Hps. destruct Hps as (d & Hd & Hp).
  assert (E : signup_for_activity name email f =
              (Raise (HTTPException 400 "Student is already signed up"), f)).
  { rewrite signup_for_activity_eq, Hd. unfold getitem. rewrite Hp.
    now rewrite (proj2 (str_in_list ps email) Hin). }
  rewrite E. now repeat split.
Qed.

Lemma signup_present_email_rejected_witness :
  signup_for_activity "Chess Club" "daniel@mergington.edu" seeded =
    (Raise (HTTPException 400 "Student is already signed up"), seeded).
Proof.
  apply (@signup_present_email_rejected seeded "Chess Club"
           "daniel@mergington.edu"
           [JStr "michael@mergington.edu"; JStr "daniel@mergington.edu"]).
  - reflexivity.
  - right. left. reflexivity.
Defined.

(** C4. For every activity name that is not a key of the file and every
    email, both the sign-up and the unregister handler raise the 404
    exception "Activity not found" and leave the file as it was. *)
Theorem unknown_activity_not_found (f : store) (name email : string) :
  dict_get f name = None ->
  signup_for_activity name email f =
    (Raise (HTTPException 404 "Activity not found"), f)
  /\ unregister_from_activity name email f =
    (Raise (HTTPException 404 "Activity not found"), f).
Proof.
  intros Hnone.
  rewrite signup_for_activity_eq, unregister_from_activity_eq, Hnone.
  now split.
Qed.

Lemma unknown_activity_not_found_witness :
  signup_for_activity "Knitting" "emma@mergington.edu" seeded =
    (Raise (HTTPException 404 "Activity not found"), seeded)
  /\ unregister_from_activity "Knitting" "emma@mergington.edu" seeded =
    (Raise (HTTPException 404 "Activity not found"), seeded).
Proof.
  apply (@unknown_activity_not_found seeded "Knitting" "emma@mergington.edu").
  reflexivity.
Defined.

(** C2. For every stored activity whose participants field is the list
    [ps] and every email: if the email is in [ps], the unregister handler
    returns its message and writes the file in which the first occurrence
    of the email, and nothing else, is gone from that list (one occurrence
    fewer, all other items in their order); if the email is not in [ps],
    the handler raises the 400 exception and the file is left as it was. *)
Theorem unregister_removes_one_or_rejects
    (f : store) (name email : string) (d : doc) (ps : list json) :
  dict_get f name = Some d ->
  dict_get d "participants" = Some (JArr ps) ->
  (In (JStr email) ps ->
     exists before after,
       ps = before ++ JStr email :: after
       /\ ~ In (JStr email) before
       /\ unregister_from_activity name email f =
            (Return [("message",
                      JStr ("Unregistered " ++ email ++ " from " ++ name))],
             dict_set f name
               (dict_set d "participants" (JArr (before ++ after))))
       /\ py_count (JStr email) ps =
            S (py_count (JStr email) (before ++ after)))
  /\ (~ In (JStr email) ps ->
        unregister_from_activity name email f =
          (Raise (HTTPException 400
                    "Student is not signed up for this activity"), f)).
Proof.
  intros Hd Hp. split.
  - intros Hin.
    destruct (list_remove_first ps email Hin) as (b & a & Hps & Hb & Hrm).
    exists b, a. repeat split; try assumption.
    + rewrite unregister_from_activity_eq, Hd. unfold getitem. rewrite Hp.
      rewrite (proj2 (str_in_list ps email) Hin).
      rewrite (pull_items_list d "participants" (JStr email) ps Hp).
      now rewrite Hrm.
    + rewrite Hps, !py_count_app.
      change (JStr email :: a) with ([JStr email] ++ a).
      rewrite py_count_app, py_count_one. lia.
  - intros Hnot.
    rewrite unregister_from_activity_eq, Hd. unfold getitem. rewrite Hp.
    now rewrite (proj2 (str_in_list_false ps email) Hnot).
Qed.

Lemma unregister_removes_one_or_rejects_witness :
  (exists before after,
     [JStr "michael@mergington.edu"; JStr "daniel@mergington.edu"] =
       before ++ JStr "michael@mergington.edu" :: after
     /\ ~ In (JStr "michael@mergington.edu") before
     /\ unregister_from_activity "Chess Club" "michael@mergington.edu" seeded =
          (Return [("message",
                    JStr ("Unregistered " ++ "michael@mergington.edu" ++
                          " from " ++ "Chess Club"))],
           dict_set seeded "Chess Club"
             (dict_set chess_club "participants" (JArr (before ++ after))))
     /\ py_count (JStr "michael@mergington.edu")
          [JStr "michael@mergington.edu"; JStr "daniel@mergington.edu"] =
        S (py_count (JStr "michael@mergington.edu") (before ++ after)))
  /\ unregister_from_activity "Chess Club" "emma@mergington.edu" seeded =
       (Raise (HTTPException 400
                 "Student is not signed up for this activity"), seeded).
Proof.
  split.
  - apply (proj1 (unregister_removes_one_or_rejects seeded "Chess Club"
                    "michael@mergington.edu" chess_club
                    [JStr "michael@mergington.edu";
                     JStr "daniel@mergington.edu"] eq_refl eq_refl)).
    left. reflexivity.
  - apply (proj2 (unregister_removes_one_or_rejects seeded "Chess Club"
                    "emma@mergington.edu" chess_club
                    [JStr "michael@mergington.edu";
                     JStr "daniel@mergington.edu"] eq_refl eq_refl)).
    intros [H|[H|[]]]; discriminate H.
Defined.

(** C6. Sign-up does not look at the capacity: for every stored activity
    whose [max_participants] is [cap] and whose participants list [ps]
    already has [cap] items or more, signing up an email that is not in
    [ps] returns the confirmation and appends the email, leaving more
    participants than [cap]. *)
Theorem signup_ignores_capacity
    (f : store) (name email : string) (d : doc) (ps : list json) (cap : Z) :
  dict_get f name = Some d ->
  dict_get d "participants" = Some (JArr ps) ->
  dict_get d "max_participants" = Some (JNum cap) ->
  (cap <= Z.of_nat (length ps))%Z ->
  ~ In (JStr email) ps ->
  let f' := dict_set f name (dict_set d "participants" (JArr (ps ++ [JStr email]))) in
  signup_for_activity name email f =
    (Return [("message", JStr ("Signed up " ++ email ++ " for " ++ name))], f')
  /\ participants_of f' name = Some (ps ++ [JStr email])
  /\ (cap < Z.of_nat (length (ps ++ [JStr email])))%Z.
Proof.
  intros Hd Hp _ Hfull Hnew f'. repeat split.
  - rewrite signup_for_activity_eq, Hd. unfold getitem. rewrite Hp.
    rewrite (proj2 (str_in_list_false ps email) Hnew).
    now rewrite (push_items_list d "participants" (JStr email) ps Hp).
  - apply participants_of_set.
  - rewrite length_app. cbn [length]. lia.
Qed.

Lemma signup_ignores_capacity_witness :
  let ps := [JStr "ava@mergington.edu"; JStr "mia@mergington.edu"] in
  let d := activity "Sing in pairs" "Mondays" 2
             ["ava@mergington.edu"; "mia@mergington.edu"] in
  let f' := dict_set full_club "Duet"
              (dict_set d "participants"
                 (JArr (ps ++ [JStr "noah@mergington.edu"]))) in
  signup_for_activity "Duet" "noah@mergington.edu" full_club =
    (Return [("message", JStr "Signed up noah@mergington.edu for Duet")], f')
  /\ participants_of f' "Duet" = Some (ps ++ [JStr "noah@mergington.edu"])
  /\ (2 < Z.of_nat (length (ps ++ [JStr "noah@mergington.edu"])))%Z.
Proof.
  apply (signup_ignores_capacity full_club "Duet" "noah@mergington.edu"
           (activity "Sing in pairs" "Mondays" 2
              ["ava@mergington.edu"; "mia@mergington.edu"])
           [JStr "ava@mergington.edu"; JStr "mia@mergington.edu"] 2).
  - reflexivity.
  - reflexivity.
  - reflexivity.
  - cbn. lia.
  - intros [H|[H|[]]]; discriminate H.
Defined.

(** * The storage layer *)

(** C9. For every file and every filter argument, [count_documents]
    returns the number of entries of the file and leaves it as it was; two
    filters give the same count. *)
Theorem count_documents_ignores_filter (f : store) (query : dict json) :
  count_documents query f = (Return (length f), f)
  /\ forall query', count_documents query' f = count_documents query f.
Proof. split; [reflexivity|intros; reflexivity]. Qed.

(** C7. Seeding the empty file inserts the 9 initial activities, the file
    then holds exactly the seed data, and reading it back through
    [get_activities] gives, under each activity name, the description,
    schedule, max_participants and participants of [initial_activities]
    and nothing under any other name. *)
Theorem seed_round_trip :
  length initial_activities = 9
  /\ init_db [] = (Return tt, initial_activities)
  /\ get_activities (snd (init_db [])) =
       (Return (listing initial_activities), initial_activities)
  /\ forall name,
       PyDict.get py_eq (listing initial_activities) (JStr name) =
       dict_get initial_activities name.
Proof.
  split; [reflexivity|]. split; [reflexivity|]. split; [vm_compute; reflexivity|].
  intros name. unfold dict_get, listing.
  induction initial_activities as [|[k v] l IH]; cbn [PyDict.get map fst snd].
  - reflexivity.
  - change (py_eq (JStr name) (JStr k)) with (String.eqb name k).
    destruct (String.eqb name k); [reflexivity|exact IH].
Qed.

(** C5, as first stated, fails: removing an email that is not in the list
    of a stored activity does not return a modified-count at all,
    [list.remove] raises [ValueError]. *)
Lemma update_one_pull_absent_raises :
  dict_mem seeded "Chess Club" = true
  /\ update_one (by_name "Chess Club")
       [("$pull", [("participants", JStr "emma@mergington.edu")])] seeded =
     (Raise ValueError, seeded)
  /\ ~ update_one_always_counts.
Proof.
  split; [reflexivity|]. split; [reflexivity|].
  intros claim.
  destruct (claim seeded "Chess Club" "$pull" "participants"
              (JStr "emma@mergington.edu")) as (f' & H); [now right|].
  discriminate H.
Qed.

(** An add-to-list does not always answer either: on a field that holds
    something other than a list [append] raises [AttributeError], and a
    value with a number that [json.dumps] cannot convert makes [_write]
    raise [ValueError]; in both cases nothing is written. *)
Lemma update_one_push_raises :
  update_one (by_name "Chess Club")
    [("$push", [("schedule", JStr "emma@mergington.edu")])] seeded =
  (Raise AttributeError, seeded)
  /\ update_one (by_name "Chess Club")
       [("$push", [("participants", JNum int_str_bound)])] seeded =
     (Raise ValueError, seeded).
Proof. split; reflexivity. Qed.

(** C5 (amended). For every file and queried name: when no record has
    that name, [update_one] returns modified-count 0 for any update and
    writes nothing.  When a record has that name, an add-to-list of a
    scalar value (a string, a boolean, null or an integer of at most 4300
    digits) returns modified-count 1 and appends the value if the field
    holds a list, and creates the field as the one-item list if the field
    is missing; a remove-from-list returns modified-count 1 and changes
    nothing if the field is missing, returns modified-count 1 and removes
    the first equal item if the field holds a list with such an item, and
    raises [ValueError], writing nothing, if the field holds a list
    without one. *)
Theorem update_one_modified_count
    (f : store) (name field : string) (value : json) :
  (dict_get f name = None ->
     forall update,
       update_one (by_name name) update f =
       (Return {| modified_count := 0 |}, f))
  /\ (forall d, dict_get f name = Some d ->
       (forall l, dict_get d field = Some (JArr l) ->
          scalar value = true ->
          update_one (by_name name) [("$push", [(field, value)])] f =
          (Return {| modified_count := 1 |},
           dict_set f name (dict_set d field (JArr (l ++ [value])))))
       /\ (dict_get d field = None ->
            scalar value = true ->
            update_one (by_name name) [("$push", [(field, value)])] f =
            (Return {| modified_count := 1 |},
             dict_set f name (dict_set d field (JArr [value]))))
       /\ (dict_get d field = None ->
            update_one (by_name name) [("$pull", [(field, value)])] f =
            (Return {| modified_count := 1 |}, f))
       /\ (forall l, dict_get d field = Some (JArr l) ->
            existsb (fun x => py_eq x value) l = true ->
            exists l',
              list_remove value l = Some l' /\
              update_one (by_name name) [("$pull", [(field, value)])] f =
              (Return {| modified_count := 1 |},
               dict_set f name (dict_set d field (JArr l'))))
       /\ (forall l, dict_get d field = Some (JArr l) ->
            existsb (fun x => py_eq x value) l = false ->
            update_one (by_name name) [("$pull", [(field, value)])] f =
            (Raise ValueError, f))).
Proof.
  split.
  - intros Hnone update. now rewrite update_one_by_name, Hnone.
  - intros d Hd.
    assert (Hpush : forall d0,
      apply_update [("$push", [(field, value)])] d0 =
      push_items [(field, value)] d0) by reflexivity.
    assert (Hpull : forall d0,
      apply_update [("$pull", [(field, value)])] d0 =
      pull_items [(field, value)] d0) by reflexivity.
    assert (Hadded : scalar value = true ->
      forallb dumps_ok (pushed [("$push", [(field, value)])]) = true).
    { intros Hv. change (pushed [("$push", [(field, value)])]) with [value].
      cbn [forallb]. now rewrite (scalar_dumps_ok value Hv). }
    assert (Hnone : forallb dumps_ok (pushed [("$pull", [(field, value)])])
                    = true) by reflexivity.
    repeat split.
    + intros l Hl Hv.
      rewrite update_one_by_name, Hd, Hpush, (push_items_list d field value l Hl).
      now rewrite (Hadded Hv).
    + intros Hl Hv.
      rewrite update_one_by_name, Hd, Hpush, (push_items_missing d field value Hl).
      now rewrite (Hadded Hv), dict_set_set.
    + intros Hl.
      rewrite update_one_by_name, Hd, Hpull, (pull_items_missing d field value Hl).
      now rewrite Hnone, (dict_set_same f name d Hd).
    + intros l Hl Hin.
      destruct (list_remove_found value l Hin) as (l' & Hrm & _).
      exists l'. split; [exact Hrm|].
      rewrite update_one_by_name, Hd, Hpull, (pull_items_list d field value l Hl).
      now rewrite Hrm, Hnone.
    + intros l Hl Hout.
      rewrite update_one_by_name, Hd, Hpull, (pull_items_list d field value l Hl).
      now rewrite (list_remove_missing value l Hout).
Qed.

Lemma update_one_modified_count_witness :
  update_one (by_name "Knitting")
    [("$push", [("participants", JStr "emma@mergington.edu")])] seeded =
    (Return {| modified_count := 0 |}, seeded)
  /\ fst (update_one (by_name "Chess Club")
            [("$push", [("participants", JStr "emma@mergington.edu")])] seeded) =
     Return {| modified_count := 1 |}
  /\ fst (update_one (by_name "Chess Club")
            [("$pull", [("participants", JStr "daniel@mergington.edu")])] seeded) =
     Return {| modified_count := 1 |}
  /\ update_one (by_name "Chess Club")
       [("$pull", [("participants", JStr "emma@mergington.edu")])] seeded =
     (Raise ValueError, seeded)
  /\ update_one (by_name "Chess Club")
       [("$pull", [("waiting", JStr "emma@mergington.edu")])] seeded =
     (Return {| modified_count := 1 |}, seeded)
  /\ fst (update_one (by_name "Chess Club")
            [("$push", [("waiting", JStr "emma@mergington.edu")])] seeded) =
     Return {| modified_count := 1 |}.
Proof.
  pose (chess := activity "Learn strategies and compete in chess tournaments"
                   "Fridays, 3:30 PM - 5:00 PM" 12
                   ["michael@mergington.edu"; "daniel@mergington.edu"]).
  pose (ps := [JStr "michael@mergington.edu"; JStr "daniel@mergington.edu"]).
  split.
  { apply (proj1 (@update_one_modified_count seeded "Knitting" "participants"
                    (JStr "emma@mergington.edu")) eq_refl). }
  destruct (proj2 (@update_one_modified_count seeded "Chess Club" "participants"
                     (JStr "emma@mergington.edu")) chess eq_refl)
    as (Hpush & _ & _ & _ & Hraise).
  destruct (proj2 (@update_one_modified_count seeded "Chess Club" "participants"
                     (JStr "daniel@mergington.edu")) chess eq_refl)
    as (_ & _ & _ & Hpull & _).
  destruct (proj2 (@update_one_modified_count seeded "Chess Club" "waiting"
                     (JStr "emma@mergington.edu")) chess eq_refl)
    as (_ & Hnew & Hskip & _ & _).
  split; [now rewrite (Hpush ps eq_refl eq_refl)|].
  split.
  { destruct (Hpull ps eq_refl eq_refl) as (l' & _ & Hrun). now rewrite Hrun. }
  split; [exact (Hraise ps eq_refl eq_refl)|].
  split; [exact (Hskip eq_refl)|].
  now rewrite (Hnew eq_refl eq_refl).
Defined.

(** * GET /activities *)

Lemma listing_set_new (pre : store) (k : string) (v : doc) :
  ~ In k (map fst pre) ->
  PyDict.set py_eq (listing pre) (JStr k) v = listing (pre ++ [(k, v)]).
Proof.
  induction pre as [|[k0 v0] pre IH]; intros Hk.
  - reflexivity.
  - cbn [listing map fst snd PyDict.set app].
    change (py_eq (JStr k) (JStr k0)) with (String.eqb k k0).
    destruct (String.eqb_spec k k0) as [->|Hne].
    + exfalso. apply Hk. now left.
    + f_equal. apply IH. intros H. apply Hk. now right.
Qed.

Lemma listing_get (f : store) (name : string) :
  PyDict.get py_eq (listing f) (JStr name) = dict_get f name.
Proof.
  induction f as [|[k v] f IH]; [reflexivity|].
  cbn [listing map fst snd PyDict.get]. rewrite dict_get_cons.
  change (py_eq (JStr name) (JStr k)) with (String.eqb name k).
  destruct (String.eqb name k); [reflexivity|exact IH].
Qed.

Lemma with_id_plain (k : json) (v : doc) :
  dict_get v "_id" = None -> with_id k v = ("_id", k) :: v.
Proof.
  intros H. unfold with_id. now rewrite H, dict_remove_absent.
Qed.

Lemma collect_plain (f : store) : forall pre : store,
  NoDup (map fst (pre ++ f)) ->
  Forall (fun kv => dict_get (snd kv) "_id" = None) f ->
  collect (map (fun kv => with_id (JStr (fst kv)) (snd kv)) f) (listing pre)
  = Return (listing (pre ++ f)).
Proof.
  induction f as [|[k v] f IH]; intros pre Hnd Hplain.
  - now rewrite app_nil_r.
  - inversion Hplain as [|? ? Hv Hrest]; subst. cbn [snd] in Hv.
    cbn [map fst snd collect].
    rewrite (with_id_plain (JStr k) v Hv).
    rewrite dict_get_cons, dict_remove_cons, String.eqb_refl.
    cbn [hashable].
    assert (Hk : ~ In k (map fst pre)).
    { rewrite map_app in Hnd. apply NoDup_remove_2 in Hnd.
      intros H. apply Hnd. apply in_or_app. now left. }
    rewrite (listing_set_new pre k v Hk).
    rewrite (IH (pre ++ [(k, v)])).
    + now rewrite <- app_assoc.
    + now rewrite <- app_assoc.
    + exact Hrest.
Qed.

(** Whatever the documents of the file hold, as long as each is a
    dictionary: when [get_activities] returns, no value of the mapping has
    an ["_id"] field, the [pop] took it. *)
Lemma collect_strips_id (docs : list doc) : forall acc acts : response,
  Forall (fun d => NoDup (map fst d)) docs ->
  Forall (fun kv => dict_get (snd kv) "_id" = None) acc ->
  collect docs acc = Return acts ->
  Forall (fun kv => dict_get (snd kv) "_id" = None) acts.
Proof.
  induction docs as [|d docs IH]; intros acc acts Hdocs Hacc; cbn [collect].
  - now intros [= <-].
  - inversion Hdocs as [|? ? Hd Hrest]; subst.
    destruct (dict_get d "_id") as [name|]; [|discriminate].
    destruct (hashable name); [|discriminate].
    apply IH; [exact Hrest|].
    clear IH. induction Hacc as [|[k0 v0] acc H0 Hacc IHacc]; cbn [PyDict.set].
    + constructor; [|constructor]. now apply dict_get_remove_eq.
    + destruct (py_eq name k0); constructor; auto.
      now apply dict_get_remove_eq.
Qed.

Lemma with_id_NoDup (k : json) (v : doc) :
  NoDup (map fst v) -> NoDup (map fst (with_id k v)).
Proof.
  intros Hnd. unfold with_id. cbn [map fst]. constructor.
  - apply dict_get_None_keys. now apply dict_get_remove_eq.
  - clear k. induction v as [|[k0 v0] v IH]; [constructor|].
    inversion Hnd as [|? ? Hk0 Hnd']; subst.
    rewrite dict_remove_cons. destruct (String.eqb "_id" k0); [exact Hnd'|].
    cbn [map fst]. constructor; [|now apply IH].
    intros H. apply Hk0. apply in_map_iff in H.
    destruct H as ([k1 v1] & Hk1 & Hin). cbn in Hk1. subst k1.
    apply dict_remove_In in Hin. now apply (in_map fst) in Hin.
Qed.

Lemma get_activities_strips_id (f f' : store) (acts : response) :
  Forall (fun kv => NoDup (map fst (snd kv))) f ->
  get_activities f = (Return acts, f') ->
  f' = f /\ Forall (fun kv => dict_get (snd kv) "_id" = None) acts.
Proof.
  intros Hdocs. unfold get_activities, find, bind, _read, ret, lift.
  intros [= Hrun <-]. split; [reflexivity|].
  apply (collect_strips_id _ [] acts) in Hrun; [exact Hrun| |constructor].
  apply Forall_map. revert Hdocs. apply Forall_impl.
  intros [k v] Hv. now apply with_id_NoDup.
Qed.

(** A document that came with an ["_id"] field of its own (no operation
    of the handlers writes one) is listed under that value, not under its
    name. *)
Lemma get_activities_own_id :
  get_activities [("A", [("_id", JStr "B")])] =
  (Return [(JStr "B", [])], [("A", [("_id", JStr "B")])]).
Proof. reflexivity. Qed.

(** The files reached from the seed data are files as the program writes
    them: the handlers keep the names and add no ["_id"] field, so what
    the theorem on GET /activities asks of the file holds after every
    sequence of calls. *)
Lemma handle_plain_store (r : request) (f : store) :
  plain_store f -> plain_store (snd (handle r f)).
Proof.
  intros [Hnd Hplain].
  assert (Hset : forall name d ps,
            dict_get f name = Some d ->
            plain_store (dict_set f name (dict_set d "participants" ps))).
  { intros name d ps Hd. split.
    - now rewrite (dict_set_keys f name _ d Hd).
    - apply (Forall_dict_set (fun v => dict_get v "_id" = None));
        [exact Hplain|].
      rewrite dict_get_set_neq by discriminate.
      exact (Forall_dict_get (fun v => dict_get v "_id" = None)
               f name d Hplain Hd). }
  destruct r as [name email|name email]; cbn [handle].
  - destruct (signup_store f name email) as [->|(d & ps & Hd & _ & _ & ->)];
      [now split|now apply Hset].
  - destruct (unregister_store f name email)
      as [->|(d & ps & ps' & Hd & _ & _ & ->)]; [now split|now apply Hset].
Qed.

Lemma reachable_plain_store (rs : list request) :
  plain_store (run rs seeded).
Proof.
  assert (Hseed : plain_store seeded).
  { change seeded with initial_activities. split.
    - repeat (constructor;
              [cbn; intros H;
               repeat (destruct H as [H|H]; [discriminate H|]); exact H|]).
      constructor.
    - repeat (constructor; [reflexivity|]). constructor. }
  revert Hseed. generalize seeded.
  induction rs as [|r rs IH]; intros f Hf; cbn [run]; [exact Hf|].
  apply IH. now apply handle_plain_store.
Qed.

(** C8. For every file as the program writes it (no name twice, no
    document with an ["_id"] field of its own), [get_activities] returns
    the mapping that has, for each stored activity, its name as key and
    its document as value: every key is the name of the activity whose
    document is the value, every stored name is a key, and no value has an
    ["_id"] field.  Every file reached from the seed data by sign-up and
    unregister calls is such a file. *)
Theorem get_activities_keys_are_names :
  (forall f : store,
     plain_store f ->
     get_activities f = (Return (listing f), f)
     /\ (forall key value,
           In (key, value) (listing f) ->
           dict_get value "_id" = None /\
           exists name, key = JStr name /\ dict_get f name = Some value)
     /\ (forall name,
           PyDict.get py_eq (listing f) (JStr name) = dict_get f name))
  /\ (forall rs : list request, plain_store (run rs seeded)).
Proof.
  split; [|exact reachable_plain_store].
  intros f [Hnd Hplain]. split; [|split].
  - unfold get_activities, find, bind, _read, ret, lift.
    change (@nil (json * doc)) with (listing []).
    now rewrite (collect_plain f [] Hnd Hplain).
  - intros key value Hin. unfold listing in Hin.
    apply in_map_iff in Hin. destruct Hin as ([k v] & [= <- <-] & Hin).
    split.
    + rewrite Forall_forall in Hplain. exact (Hplain _ Hin).
    + exists k. split; [reflexivity|]. now apply dict_get_NoDup.
  - apply listing_get.
Qed.

Lemma get_activities_keys_are_names_witness :
  let f := run [Signup "Chess Club" "emma@mergington.edu";
                Unregister "Gym Class" "john@mergington.edu"] seeded in
  get_activities f = (Return (listing f), f)
  /\ (forall key value,
        In (key, value) (listing f) ->
        dict_get value "_id" = None /\
        exists name, key = JStr name /\ dict_get f name = Some value)
  /\ (forall name,
        PyDict.get py_eq (listing f) (JStr name) = dict_get f name).
Proof.
  intros f.
  apply (proj1 get_activities_keys_are_names f).
  split.
  - vm_compute.
    repeat (constructor;
            [cbn; intros H;
             repeat (destruct H as [H|H]; [discriminate H|]); exact H|]).
    constructor.
  - vm_compute. repeat (constructor; [reflexivity|]). constructor.
Defined.

(** * Sequences of sign-ups and unregistrations *)

Lemma In_map_JStr (emails : list string) (e : string) :
  In (JStr e) (map JStr emails) <-> In e emails.
Proof.
  rewrite in_map_iff. split.
  - now intros (x & [= ->] & H).
  - intros H. now exists e.
Qed.

Lemma NoDup_snoc (emails : list string) (e : string) :
  NoDup emails -> ~ In e emails -> NoDup (emails ++ [e]).
Proof.
  intros Hnd Hnew.
  apply NoDup_app; [exact Hnd|repeat constructor; intros []|].
  intros x Hx [<-|[]]. contradiction.
Qed.

Lemma handle_all_unique (r : request) (f : store) :
  all_unique f -> all_unique (snd (handle r f)).
Proof.
  intros Hinv. destruct r as [name email|name email]; cbn [handle].
  - destruct (signup_store f name email) as [->|(d & ps & Hd & Hp & Hnew & ->)];
      [exact Hinv|].
    apply Forall_dict_set; [exact Hinv|].
    destruct (Forall_dict_get unique_emails f name d Hinv Hd)
      as (emails & Hemails & Hnd).
    rewrite Hp in Hemails. injection Hemails as ->.
    exists (emails ++ [email]). split.
    + now rewrite dict_get_set_eq, map_app.
    + apply NoDup_snoc; [exact Hnd|]. now rewrite <- In_map_JStr.
  - destruct (unregister_store f name email)
      as [->|(d & ps & ps' & Hd & Hp & Hrm & ->)]; [exact Hinv|].
    apply Forall_dict_set; [exact Hinv|].
    destruct (Forall_dict_get unique_emails f name d Hinv Hd)
      as (emails & Hemails & Hnd).
    rewrite Hp in Hemails. injection Hemails as ->.
    destruct (list_remove_strings emails email ps' Hrm)
      as (emails' & -> & _ & Hnd').
    exists emails'. split; [apply dict_get_set_eq|now apply Hnd'].
Qed.

Lemma run_all_unique (rs : list request) : forall f,
  all_unique f -> all_unique (run rs f).
Proof.
  induction rs as [|r rs IH]; intros f Hinv; cbn [run]; [exact Hinv|].
  apply IH. now apply handle_all_unique.
Qed.

Lemma unique_emails_activity (description schedule : string) (cap : Z)
    (emails : list string) :
  NoDup emails -> unique_emails (activity description schedule cap emails).
Proof. intros Hnd. exists emails. now split. Qed.

Lemma NoDup_pair (a b : string) : a <> b -> NoDup [a; b].
Proof.
  intros Hne. constructor; [intros [H|[]]; congruence|].
  constructor; [intros []|constructor].
Qed.

Lemma seeded_all_unique : all_unique seeded.
Proof.
  change seeded with initial_activities.
  repeat (constructor;
          [apply unique_emails_activity; apply NoDup_pair; discriminate|]).
  constructor.
Qed.

(** C10. Starting from the seed data, after every sequence of sign-up and
    unregister calls each stored activity has a participants list of email
    strings without duplicates.  The storage-level [$push] does not see to
    that: it appends its value (a string, or any other scalar that
    [json.dumps] writes) to the list whether or not the list holds it
    already, so that pushing a member leaves the member twice. *)
Theorem participants_stay_unique :
  (forall (rs : list request) (name : string) (d : doc),
     dict_get (run rs seeded) name = Some d ->
     exists emails : list string,
       participants_of (run rs seeded) name = Some (map JStr emails) /\
       NoDup emails)
  /\ (forall (f : store) (name : string) (d : doc) (ps : list json)
             (value : json),
        dict_get f name = Some d ->
        dict_get d "participants" = Some (JArr ps) ->
        scalar value = true ->
        update_one (by_name name) [("$push", [("participants", value)])] f =
        (Return {| modified_count := 1 |},
         dict_set f name (dict_set d "participants" (JArr (ps ++ [value]))))
        /\ (In value ps -> ~ NoDup (ps ++ [value]))).
Proof.
  split.
  - intros rs name d Hd.
    pose proof (run_all_unique rs seeded seeded_all_unique) as Hinv.
    destruct (Forall_dict_get unique_emails _ name d Hinv Hd)
      as (emails & Hp & Hnd).
    exists emails. split; [|exact Hnd].
    apply participants_of_Some. now exists d.
  - intros f name d ps value Hd Hp Hv. split.
    + rewrite update_one_by_name, Hd.
      change (apply_update [("$push", [("participants", value)])] d)
        with (push_items [("participants", value)] d).
      change (pushed [("$push", [("participants", value)])]) with [value].
      cbn [forallb]. rewrite (scalar_dumps_ok value Hv).
      now rewrite (push_items_list d "participants" value ps Hp).
    + intros Hin Hnd.
      apply NoDup_remove_2 in Hnd. rewrite app_nil_r in Hnd.
      contradiction.
Qed.

Lemma participants_stay_unique_witness :
  (exists emails : list string,
     participants_of
       (run [Signup "Chess Club" "emma@mergington.edu";
             Signup "Chess Club" "emma@mergington.edu";
             Unregister "Chess Club" "michael@mergington.edu"] seeded)
       "Chess Club" = Some (map JStr emails)
     /\ NoDup emails)
  /\ update_one (by_name "Chess Club")
       [("$push", [("participants", JStr "daniel@mergington.edu")])] seeded =
     (Return {| modified_count := 1 |},
      dict_set seeded "Chess Club"
        (dict_set chess_club "participants"
           (JArr [JStr "michael@mergington.edu"; JStr "daniel@mergington.edu";
                  JStr "daniel@mergington.edu"])))
  /\ ~ NoDup [JStr "michael@mergington.edu"; JStr "daniel@mergington.edu";
              JStr "daniel@mergington.edu"].
Proof.
  split; [|split].
  - apply (proj1 participants_stay_unique
             [Signup "Chess Club" "emma@mergington.edu";
              Signup "Chess Club" "emma@mergington.edu";
              Unregister "Chess Club" "michael@mergington.edu"]
             "Chess Club"
             (activity "Learn strategies and compete in chess tournaments"
                "Fridays, 3:30 PM - 5:00 PM" 12
                ["daniel@mergington.edu"; "emma@mergington.edu"])).
    reflexivity.
  - apply (proj2 participants_stay_unique seeded "Chess Club" chess_club
             [JStr "michael@mergington.edu"; JStr "daniel@mergington.edu"]
             (JStr "daniel@mergington.edu") eq_refl eq_refl eq_refl).
  - apply (proj2 participants_stay_unique seeded "Chess Club" chess_club
             [JStr "michael@mergington.edu"; JStr "daniel@mergington.edu"]
             (JStr "daniel@mergington.edu") eq_refl eq_refl eq_refl).
    right. left. reflexivity.
Defined.

(** * Further properties of the storage layer *)

Lemma init_db_nonempty (f : store) : f <> [] -> init_db f = (Return tt, f).
Proof.
  destruct f as [|kv f]; [congruence|]. intros _. reflexivity.
Qed.

(** X1. Start-up seeds only an empty store: from a missing file or from
    the file [{}] it leaves the seed data, a file that already holds
    activities is left as it is, and starting again changes nothing. *)
Theorem startup_seeds_only_when_empty (file : option store) :
  (file = None \/ file = Some [] ->
     startup file = (Return tt, initial_activities))
  /\ (forall f, file = Some f -> f <> [] -> startup file = (Return tt, f))
  /\ startup (Some (snd (startup file))) = (Return tt, snd (startup file)).
Proof.
  split; [|split].
  - intros [->| ->]; reflexivity.
  - intros f -> Hf. now apply init_db_nonempty.
  - destruct file as [[|kv f]|]; try reflexivity.
Qed.

Lemma startup_seeds_only_when_empty_witness :
  startup None = (Return tt, initial_activities)
  /\ startup (Some full_club) = (Return tt, full_club).
Proof.
  split.
  - apply (proj1 (startup_seeds_only_when_empty None)). left. reflexivity.
  - apply (proj1 (proj2 (startup_seeds_only_when_empty (Some full_club)))
             full_club eq_refl).
    discriminate.
Defined.

Lemma flat_doc_dumps_ok (d : doc) :
  flat_doc d = true ->
  forallb dumps_ok (map snd (dict_remove d "_id")) = true.
Proof.
  unfold flat_doc. rewrite !forallb_forall. intros H x Hx.
  apply in_map_iff in Hx. destruct Hx as ([k v] & <- & Hin).
  apply flat_dumps_ok. apply (H (k, v)). now apply dict_remove_In in Hin.
Qed.

Lemma insert_one_by_name (f : store) (d : doc) (name : string) :
  dict_get d "_id" = Some (JStr name) ->
  flat_doc d = true ->
  insert_one d f =
  (Return {| inserted_id := JStr name |},
   dict_set f name (dict_remove d "_id")).
Proof.
  intros H Hflat. unfold insert_one, bind, _read, _write, lift, ret.
  rewrite H. cbn [json_key]. now rewrite (flat_doc_dumps_ok d Hflat).
Qed.

(** X2. Insert, then look up: after [insert_one] of a document whose
    ["_id"] is the string [name] and whose fields hold scalars or lists of
    scalars (strings, booleans, null, integers of at most 4300 digits),
    [find_one] by that name returns a document with the same value under
    every key, the ["_id"] included. *)
Theorem insert_one_then_find_one (f : store) (d : doc) (name : string) :
  NoDup (map fst d) ->
  dict_get d "_id" = Some (JStr name) ->
  flat_doc d = true ->
  exists f' r,
    insert_one d f = (Return {| inserted_id := JStr name |}, f')
    /\ find_one (by_name name) f' = (Return (Some r), f')
    /\ forall field, dict_get r field = dict_get d field.
Proof.
  intros Hnd Hid Hflat.
  exists (dict_set f name (dict_remove d "_id")),
         (("_id", JStr name) :: dict_remove d "_id").
  split; [now apply insert_one_by_name|]. split.
  - rewrite find_one_by_name, dict_get_set_eq. cbn [option_map].
    now rewrite with_id_plain by now apply dict_get_remove_eq.
  - intros field. rewrite dict_get_cons.
    destruct (String.eqb_spec field "_id") as [->|Hne]; [now rewrite Hid|].
    apply dict_get_remove_neq. congruence.
Qed.

Lemma insert_one_then_find_one_witness :
  exists f' r,
    insert_one (("_id", JStr "Duet") :: activity "Sing in pairs" "Mondays" 2 [])
      seeded = (Return {| inserted_id := JStr "Duet" |}, f')
    /\ find_one (by_name "Duet") f' = (Return (Some r), f')
    /\ forall field,
         dict_get r field =
         dict_get (("_id", JStr "Duet")
                   :: activity "Sing in pairs" "Mondays" 2 []) field.
Proof.
  apply (insert_one_then_find_one seeded
           (("_id", JStr "Duet") :: activity "Sing in pairs" "Mondays" 2 [])
           "Duet").
  - cbn.
    repeat (constructor;
            [cbn; intros H;
             repeat (destruct H as [H|H]; [discriminate H|]); exact H|]).
    constructor.
  - reflexivity.
  - reflexivity.
Defined.

Lemma dict_mem_false_keys {V : Type} (d : dict V) (k : string) :
  dict_mem d k = false -> ~ In k (map fst d).
Proof.
  rewrite dict_mem_get. intros H. apply dict_get_None_keys.
  now destruct (dict_get d k).
Qed.

(** X3. [insert_one] needs an ["_id"]: a document without one raises
    [KeyError] and nothing is written.  With the string [name] as ["_id"]
    a document whose fields hold scalars or lists of scalars (strings,
    booleans, null, integers of at most 4300 digits) is stored, less its
    ["_id"], under [name]: in the place of the record of that name if
    there is one, the number of records staying the same, and as a new
    last record otherwise; the other records are untouched. *)
Theorem insert_one_replaces_or_appends (f : store) (d : doc) :
  (dict_get d "_id" = None -> insert_one d f = (Raise KeyError, f))
  /\ (forall name,
        dict_get d "_id" = Some (JStr name) ->
        flat_doc d = true ->
        let f' := snd (insert_one d f) in
        dict_get f' name = Some (dict_remove d "_id")
        /\ (forall other, other <> name -> dict_get f' other = dict_get f other)
        /\ (dict_mem f name = true -> map fst f' = map fst f)
        /\ (dict_mem f name = false ->
              f' = f ++ [(name, dict_remove d "_id")])).
Proof.
  split.
  - intros H. unfold insert_one, bind, _read, raise. now rewrite H.
  - intros name Hid Hflat f'. subst f'.
    rewrite (insert_one_by_name f d name Hid Hflat).
    cbn [snd]. repeat split.
    + apply dict_get_set_eq.
    + intros other Hne. apply dict_get_set_neq. congruence.
    + rewrite dict_mem_get. destruct (dict_get f name) as [d0|] eqn:Hd;
        [|discriminate].
      intros _. now apply (dict_set_keys f name _ d0).
    + intros Hnew. apply dict_set_absent. now apply dict_mem_false_keys.
Qed.

Lemma insert_one_replaces_or_appends_witness :
  insert_one (activity "Sing in pairs" "Mondays" 2 []) seeded =
    (Raise KeyError, seeded)
  /\ map fst (snd (insert_one (("_id", JStr "Chess Club")
                               :: activity "Blitz" "Mondays" 2 []) seeded)) =
     map fst seeded
  /\ snd (insert_one (("_id", JStr "Duet")
                      :: activity "Sing in pairs" "Mondays" 2 []) seeded) =
     seeded ++ [("Duet", dict_remove
                           (("_id", JStr "Duet")
                            :: activity "Sing in pairs" "Mondays" 2 []) "_id")].
Proof.
  split; [|split].
  - apply (proj1 (insert_one_replaces_or_appends seeded
                    (activity "Sing in pairs" "Mondays" 2 []))).
    reflexivity.
  - apply (proj2 (insert_one_replaces_or_appends seeded
                    (("_id", JStr "Chess Club")
                     :: activity "Blitz" "Mondays" 2 [])) "Chess Club" eq_refl
             eq_refl).
    reflexivity.
  - apply (proj2 (insert_one_replaces_or_appends seeded
                    (("_id", JStr "Duet")
                     :: activity "Sing in pairs" "Mondays" 2 [])) "Duet" eq_refl
             eq_refl).
    reflexivity.
Defined.

(** X4. [find] hands out one record per stored activity, in the order of
    the file and without writing, as many as [count_documents] counts;
    when no stored document has an ["_id"] of its own, each record is the
    stored document with its name put in front under ["_id"]. *)
Theorem find_lists_every_record (f : store) :
  (exists docs,
     find f = (Return docs, f)
     /\ count_documents [] f = (Return (length docs), f))
  /\ (Forall (fun kv => dict_get (snd kv) "_id" = None) f ->
      find f =
      (Return (map (fun kv => ("_id", JStr (fst kv)) :: snd kv) f), f)).
Proof.
  split.
  - eexists. split; [reflexivity|].
    unfold count_documents, bind, _read, ret. now rewrite length_map.
  - intros Hplain. unfold find, bind, _read, ret. do 2 f_equal.
    apply map_ext_in. intros [k v] Hin. cbn [fst snd].
    apply with_id_plain.
    rewrite Forall_forall in Hplain. exact (Hplain _ Hin).
Qed.

Lemma find_lists_every_record_witness :
  find full_club =
  (Return [("_id", JStr "Duet")
           :: activity "Sing in pairs" "Mondays" 2
                ["ava@mergington.edu"; "mia@mergington.edu"]],
   full_club).
Proof.
  apply (proj2 (find_lists_every_record full_club)).
  constructor; [reflexivity|constructor].
Defined.

(** X5. [find_one] by the name of a stored activity returns a record that
    has every field of the stored document with its value, and the name
    under ["_id"] unless the document has an ["_id"] of its own, which is
    then returned instead; by a name that is not stored it returns [None].
    Neither writes. *)
Theorem find_one_returns_stored_fields (f : store) (name : string) :
  (forall d,
     dict_get f name = Some d ->
     exists r,
       find_one (by_name name) f = (Return (Some r), f)
       /\ (forall field, field <> "_id" -> dict_get r field = dict_get d field)
       /\ dict_get r "_id" =
          Some (match dict_get d "_id" with
                | Some own => own
                | None => JStr name
                end))
  /\ (dict_get f name = None -> find_one (by_name name) f = (Return None, f)).
Proof.
  split.
  - intros d Hd. exists (with_id (JStr name) d). split; [|split].
    + now rewrite find_one_by_name, Hd.
    + intros field Hne. now apply dict_get_with_id.
    + unfold with_id. rewrite dict_get_cons. reflexivity.
  - intros Hnone. now rewrite find_one_by_name, Hnone.
Qed.

Lemma find_one_returns_stored_fields_witness :
  (exists r,
     find_one (by_name "Chess Club") seeded = (Return (Some r), seeded)
     /\ (forall field, field <> "_id" ->
           dict_get r field = dict_get chess_club field)
     /\ dict_get r "_id" =
        Some (match dict_get chess_club "_id" with
              | Some own => own
              | None => JStr "Chess Club"
              end))
  /\ find_one (by_name "Knitting") seeded = (Return None, seeded).
Proof.
  split.
  - apply (proj1 (find_one_returns_stored_fields seeded "Chess Club")
             chess_club).
    reflexivity.
  - apply (proj2 (find_one_returns_stored_fields seeded "Knitting")).
    reflexivity.
Defined.

(** X6. A query without an ["_id"] key matches no record: [find_one]
    returns [None] and [update_one] returns modified-count 0, whatever the
    update, and the file is left as it was. *)
Theorem query_without_id_matches_nothing
    (f : store) (query : dict json) (update : dict (dict json)) :
  dict_get query "_id" = None ->
  find_one query f = (Return None, f)
  /\ update_one query update f = (Return {| modified_count := 0 |}, f).
Proof.
  intros H.
  unfold find_one, update_one, bind, _read, lift, ret, query_id, lookup.
  now rewrite H.
Qed.

Lemma query_without_id_matches_nothing_witness :
  find_one [("name", JStr "Chess Club")] seeded = (Return None, seeded)
  /\ update_one [("name", JStr "Chess Club")]
       [("$push", [("participants", JStr "emma@mergington.edu")])] seeded =
     (Return {| modified_count := 0 |}, seeded).
Proof.
  apply (query_without_id_matches_nothing seeded [("name", JStr "Chess Club")]).
  reflexivity.
Defined.

(** X7. In [update_one] a [$push] goes before a [$pull]: an update that
    has a [$push] entry does what the update with that entry alone does,
    and its [$pull] entry, if any, is not carried out. *)
Theorem update_one_push_before_pull
    (f : store) (query : dict json) (update : dict (dict json))
    (items : dict json) :
  dict_get update "$push" = Some items ->
  update_one query update f = update_one query [("$push", items)] f.
Proof.
  intros H. unfold update_one, bind.
  destruct (_read f) as [[data|e] f0]; [|reflexivity].
  destruct (lift (lookup data (query_id query)) f0) as [[[[name d]|]|e] f1];
    try reflexivity.
  unfold apply_update, pushed. rewrite H. reflexivity.
Qed.

Lemma update_one_push_before_pull_witness :
  update_one (by_name "Chess Club")
    [("$pull", [("participants", JStr "daniel@mergington.edu")]);
     ("$push", [("participants", JStr "emma@mergington.edu")])] seeded =
  update_one (by_name "Chess Club")
    [("$push", [("participants", JStr "emma@mergington.edu")])] seeded.
Proof.
  apply (update_one_push_before_pull seeded (by_name "Chess Club")
           [("$pull", [("participants", JStr "daniel@mergington.edu")]);
            ("$push", [("participants", JStr "emma@mergington.edu")])]
           [("participants", JStr "emma@mergington.edu")]).
  reflexivity.
Defined.

(** X8. An update with neither a [$push] nor a [$pull] entry (the empty
    update, or one with other operators only) on a stored record changes
    nothing and still answers modified-count 1. *)
Theorem update_one_without_operator
    (f : store) (name : string) (d : doc) (update : dict (dict json)) :
  dict_get f name = Some d ->
  dict_get update "$push" = None ->
  dict_get update "$pull" = None ->
  update_one (by_name name) update f = (Return {| modified_count := 1 |}, f).
Proof.
  intros Hd Hpush Hpull. rewrite update_one_by_name, Hd.
  unfold apply_update, pushed. rewrite Hpush, Hpull. cbn [forallb].
  now rewrite (dict_set_same f name d Hd).
Qed.

Lemma update_one_without_operator_witness :
  update_one (by_name "Chess Club")
    [("$set", [("schedule", JStr "Never")])] seeded =
  (Return {| modified_count := 1 |}, seeded).
Proof.
  apply (update_one_without_operator seeded "Chess Club" chess_club
           [("$set", [("schedule", JStr "Never")])]);
    reflexivity.
Defined.

Lemma lookup_hit (data : store) (_id : json) (name : string) (d : doc) :
  lookup data _id = Return (Some (name, d)) -> dict_get data name = Some d.
Proof.
  destruct _id; cbn [lookup]; try discriminate.
  destruct (dict_get data s) as [v|] eqn:Hv; [|discriminate].
  now intros [= <- <-].
Qed.

(** X9. [update_one] writes all of an update or nothing: when it raises,
    whatever part of the update had been carried out, and when it answers
    modified-count 0, the file is as it was; and in no case does it add,
    remove, rename or reorder records. *)
Theorem update_one_all_or_nothing
    (f : store) (query : dict json) (update : dict (dict json)) :
  (forall e, fst (update_one query update f) = Raise e ->
             snd (update_one query update f) = f)
  /\ (fst (update_one query update f) = Return {| modified_count := 0 |} ->
      snd (update_one query update f) = f)
  /\ map fst (snd (update_one query update f)) = map fst f.
Proof.
  unfold update_one, bind, _read, _write, lift, ret.
  destruct (lookup f (query_id query)) as [[[name d]|]|e] eqn:Hhit;
    cbn [fst snd]; try (repeat split; intros; reflexivity).
  apply lookup_hit in Hhit.
  destruct (apply_update update d) as [d'|e]; cbn [fst snd].
  - destruct (forallb dumps_ok (pushed update)); cbn [fst snd].
    + repeat split; try discriminate.
      now apply (dict_set_keys f name d' d).
    + repeat split; intros; reflexivity.
  - repeat split; intros; reflexivity.
Qed.

Lemma update_one_all_or_nothing_witness :
  update_one (by_name "Chess Club")
    [("$push", [("participants", JStr "emma@mergington.edu");
                ("schedule", JStr "emma@mergington.edu")])] seeded =
  (Raise AttributeError, seeded).
Proof.
  apply injective_projections.
  - reflexivity.
  - apply (proj1 (update_one_all_or_nothing seeded (by_name "Chess Club")
                    [("$push", [("participants", JStr "emma@mergington.edu");
                                ("schedule", JStr "emma@mergington.edu")])])
             AttributeError).
    reflexivity.
Defined.

(** * Further properties of the handlers *)

Lemma getitem_raises (d : doc) (k : string) (e : exn) :
  getitem d k = Raise e -> e = KeyError.
Proof.
  unfold getitem. destruct (dict_get d k); [discriminate|]. now intros [= <-].
Qed.

Lemma str_in_raises (email : string) (c : json) (e : exn) :
  str_in email c = Raise e -> e = TypeError.
Proof. destruct c; cbn [str_in]; try discriminate; now intros [= <-]. Qed.

Lemma push_item_raises (d : doc) (field : string) (value : json) (e : exn) :
  push_items [(field, value)] d = Raise e -> e = AttributeError.
Proof.
  cbn [push_items].
  destruct (dict_get _ field) as [[]|]; try discriminate; now intros [= <-].
Qed.

Lemma pull_item_raises (d : doc) (field : string) (value : json) (e : exn) :
  pull_items [(field, value)] d = Raise e ->
  e = AttributeError \/ e = ValueError.
Proof.
  cbn [pull_items].
  destruct (dict_get d field) as [[| | | |l|]|]; try discriminate;
    try (intros [= <-]; now left).
  destruct (list_remove value l); [discriminate|].
  intros [= <-]. now right.
Qed.

(** X10. Run one call at a time, neither handler ever answers with its
    own 500 exception ("Failed to sign up student", "Failed to unregister
    student"): the record found by [find_one] is still there for
    [update_one], which then never reports modified-count 0. *)
Theorem handlers_never_report_failed_update
    (r : request) (f : store) (detail : string) :
  fst (handle r f) <> Raise (HTTPException 500 detail).
Proof.
  destruct r as [name email|name email]; cbn [handle].
  - rewrite signup_for_activity_eq.
    destruct (dict_get f name) as [d|]; [|discriminate].
    destruct (getitem d "participants") as [c|e] eqn:Hc;
      [|apply getitem_raises in Hc; subst; discriminate].
    destruct (str_in email c) as [[|]|e] eqn:Hin;
      [discriminate| |apply str_in_raises in Hin; subst; discriminate].
    destruct (push_items [("participants", JStr email)] d) as [d'|e] eqn:Hp;
      [discriminate|].
    apply push_item_raises in Hp. subst. discriminate.
  - rewrite unregister_from_activity_eq.
    destruct (dict_get f name) as [d|]; [|discriminate].
    destruct (getitem d "participants") as [c|e] eqn:Hc;
      [|apply getitem_raises in Hc; subst; discriminate].
    destruct (str_in email c) as [[|]|e] eqn:Hin;
      [|discriminate|apply str_in_raises in Hin; subst; discriminate].
    destruct (pull_items [("participants", JStr email)] d) as [d'|e] eqn:Hp;
      [discriminate|].
    apply pull_item_raises in Hp. destruct Hp; subst; discriminate.
Qed.

(** X11. The [ValueError] of [list.remove] never leaves a handler: the
    unregister handler calls [update_one] only after it has found the
    email in the list. *)
Theorem handlers_never_raise_ValueError (r : request) (f : store) :
  fst (handle r f) <> Raise ValueError.
Proof.
  destruct r as [name email|name email]; cbn [handle].
  - rewrite signup_for_activity_eq.
    destruct (dict_get f name) as [d|]; [|discriminate].
    destruct (getitem d "participants") as [c|e] eqn:Hc;
      [|apply getitem_raises in Hc; subst; discriminate].
    destruct (str_in email c) as [[|]|e] eqn:Hin;
      [discriminate| |apply str_in_raises in Hin; subst; discriminate].
    destruct (push_items [("participants", JStr email)] d) as [d'|e] eqn:Hp;
      [discriminate|].
    apply push_item_raises in Hp. subst. discriminate.
  - rewrite unregister_from_activity_eq.
    destruct (dict_get f name) as [d|]; [|discriminate].
    unfold getitem.
    destruct (dict_get d "participants") as [c|] eqn:Hc; [|discriminate].
    destruct (str_in email c) as [[|]|e] eqn:Hin;
      [|discriminate|apply str_in_raises in Hin; subst; discriminate].
    destruct c as [| | | |l|];
      try (rewrite (pull_items_not_list d "participants" (JStr email) _ Hc)
             by discriminate; discriminate).
    rewrite (pull_items_list d "participants" (JStr email) l Hc).
    cbn [str_in] in Hin. injection Hin as Hin.
    destruct (list_remove_found (JStr email) l Hin) as (l' & -> & _).
    discriminate.
Qed.

(** The file a handler leaves: the one it found, or that one with the
    participants of one stored activity replaced. *)
Lemma handle_store (r : request) (f : store) :
  snd (handle r f) = f \/
  exists name d ps,
    dict_get f name = Some d /\
    snd (handle r f) = dict_set f name (dict_set d "participants" (JArr ps)).
Proof.
  destruct r as [name email|name email]; cbn [handle].
  - destruct (signup_store f name email) as [H|(d & ps & Hd & _ & _ & H)];
      [now left|right].
    now exists name, d, (ps ++ [JStr email]).
  - destruct (unregister_store f name email)
      as [H|(d & ps & ps' & Hd & _ & _ & H)]; [now left|right].
    now exists name, d, ps'.
Qed.

Lemma handle_raise_store (r : request) (f : store) (e : exn) :
  fst (handle r f) = Raise e -> snd (handle r f) = f.
Proof.
  destruct r as [name email|name email]; cbn [handle].
  - rewrite signup_for_activity_eq.
    destruct (dict_get f name) as [d|]; [|reflexivity].
    destruct (getitem d "participants") as [c|]; [|reflexivity].
    destruct (str_in email c) as [[|]|]; try reflexivity.
    destruct (push_items _ d); [discriminate|reflexivity].
  - rewrite unregister_from_activity_eq.
    destruct (dict_get f name) as [d|]; [|reflexivity].
    destruct (getitem d "participants") as [c|]; [|reflexivity].
    destruct (str_in email c) as [[|]|]; try reflexivity.
    destruct (pull_items _ d); [discriminate|reflexivity].
Qed.

Lemma handle_keys (r : request) (f : store) :
  map fst (snd (handle r f)) = map fst f.
Proof.
  destruct (handle_store r f) as [->|(name0 & d0 & ps & Hd0 & ->)];
    [reflexivity|].
  now apply (dict_set_keys f name0 _ d0).
Qed.

Lemma handle_other_fields (r : request) (f : store) (name : string) (d : doc)
    (field : string) :
  dict_get f name = Some d ->
  field <> "participants" ->
  exists d',
    dict_get (snd (handle r f)) name = Some d' /\
    dict_get d' field = dict_get d field.
Proof.
  intros Hd Hfield.
  destruct (handle_store r f) as [->|(name0 & d0 & ps & Hd0 & ->)].
  - now exists d.
  - destruct (String.eqb_spec name0 name) as [->|Hne].
    + rewrite Hd0 in Hd. injection Hd as ->.
      eexists. split; [apply dict_get_set_eq|].
      apply dict_get_set_neq. congruence.
    + exists d. split; [|reflexivity].
      now rewrite dict_get_set_neq.
Qed.

(** X12. A call that fails, with whatever exception, leaves the file as
    it was.  No call adds, removes, renames or reorders activities, and
    no call changes a field other than ["participants"]: every other field
    of every stored activity has afterwards the value it had. *)
Theorem handle_touches_participants_only (r : request) (f : store) :
  (forall e, fst (handle r f) = Raise e -> snd (handle r f) = f)
  /\ map fst (snd (handle r f)) = map fst f
  /\ (forall name d field,
        dict_get f name = Some d ->
        field <> "participants" ->
        exists d',
          dict_get (snd (handle r f)) name = Some d' /\
          dict_get d' field = dict_get d field).
Proof.
  split; [apply handle_raise_store|].
  split; [apply handle_keys|].
  intros name d field. apply handle_other_fields.
Qed.

Lemma handle_touches_participants_only_witness :
  exists d',
    dict_get (snd (handle (Signup "Chess Club" "emma@mergington.edu") seeded))
      "Chess Club" = Some d' /\
    dict_get d' "max_participants" = dict_get chess_club "max_participants".
Proof.
  apply (proj2 (proj2 (handle_touches_participants_only
                         (Signup "Chess Club" "emma@mergington.edu") seeded))).
  - reflexivity.
  - discriminate.
Defined.

Lemma list_remove_last (ps : list json) (e : string) :
  ~ In (JStr e) ps -> list_remove (JStr e) (ps ++ [JStr e]) = Some ps.
Proof.
  induction ps as [|x ps IH]; intros Hnew; cbn [app list_remove].
  - now rewrite (proj2 (py_eq_str (JStr e) e) eq_refl).
  - rewrite (proj2 (py_eq_str_false x e)) by (intros ->; apply Hnew; now left).
    rewrite IH; [reflexivity|]. intros H. apply Hnew. now right.
Qed.

(** X13. Signing up and then unregistering is a round trip: for a stored
    activity whose participants list does not hold the email, the sign-up
    followed by the unregistration of that email both succeed and leave
    the file exactly as it was before the two calls. *)
Theorem signup_then_unregister_restores
    (f : store) (name email : string) (d : doc) (ps : list json) :
  dict_get f name = Some d ->
  dict_get d "participants" = Some (JArr ps) ->
  ~ In (JStr email) ps ->
  exists f1,
    signup_for_activity name email f =
      (Return [("message", JStr ("Signed up " ++ email ++ " for " ++ name))],
       f1)
    /\ unregister_from_activity name email f1 =
      (Return [("message",
                JStr ("Unregistered " ++ email ++ " from " ++ name))], f).
Proof.
  intros Hd Hp Hnew.
  exists (dict_set f name
            (dict_set d "participants" (JArr (ps ++ [JStr email])))).
  split.
  - rewrite signup_for_activity_eq, Hd. unfold getitem. rewrite Hp.
    rewrite (proj2 (str_in_list_false ps email) Hnew).
    now rewrite (push_items_list d "participants" (JStr email) ps Hp).
  - rewrite unregister_from_activity_eq, dict_get_set_eq.
    unfold getitem. rewrite dict_get_set_eq.
    rewrite (proj2 (str_in_list (ps ++ [JStr email]) email))
      by (apply in_or_app; right; now left).
    rewrite (pull_items_list _ "participants" (JStr email)
               (ps ++ [JStr email]) (dict_get_set_eq _ _ _)).
    rewrite (list_remove_last ps email Hnew).
    rewrite !dict_set_set.
    rewrite (dict_set_same d "participants" (JArr ps) Hp).
    now rewrite (dict_set_same f name d Hd).
Qed.

Lemma signup_then_unregister_restores_witness :
  exists f1,
    signup_for_activity "Chess Club" "emma@mergington.edu" seeded =
      (Return [("message",
                JStr ("Signed up " ++ "emma@mergington.edu" ++
                      " for " ++ "Chess Club"))], f1)
    /\ unregister_from_activity "Chess Club" "emma@mergington.edu" f1 =
      (Return [("message",
                JStr ("Unregistered " ++ "emma@mergington.edu" ++
                      " from " ++ "Chess Club"))], seeded).
Proof.
  apply (signup_then_unregister_restores seeded "Chess Club"
           "emma@mergington.edu" chess_club
           [JStr "michael@mergington.edu"; JStr "daniel@mergington.edu"]).
  - reflexivity.
  - reflexivity.
  - intros [H|[H|[]]]; discriminate H.
Defined.

(** X14. A repeated sign-up changes nothing: for a stored activity with a
    participants list, whatever the first sign-up of an email answered,
    signing the same email up again is refused with the 400 exception and
    the file stays as the first call left it. *)
Theorem signup_again_rejected
    (f : store) (name email : string) (ps : list json) :
  participants_of f name = Some ps ->
  let f1 := snd (signup_for_activity name email f) in
  signup_for_activity name email f1 =
    (Raise (HTTPException 400 "Student is already signed up"), f1).
Proof.
  intros Hps f1. apply participants_of_Some in Hps.
  destruct Hps as (d & Hd & Hp).
  assert (Hfirst : signup_for_activity name email f =
            match str_in email (JArr ps) with
            | Return true =>
                (Raise (HTTPException 400 "Student is already signed up"), f)
            | _ =>
                (Return (signed_up email name),
                 dict_set f name
                   (dict_set d "participants" (JArr (ps ++ [JStr email]))))
            end).
  { rewrite signup_for_activity_eq, Hd. unfold getitem. rewrite Hp.
    cbn [str_in]. destruct (existsb _ ps); [reflexivity|].
    now rewrite (push_items_list d "participants" (JStr email) ps Hp). }
  subst f1. rewrite Hfirst.
  destruct (str_in email (JArr ps)) as [[|]|e] eqn:Hin;
    [|cbn [snd]|discriminate Hin].
  - cbn [snd]. rewrite signup_for_activity_eq, Hd. unfold getitem.
    now rewrite Hp, Hin.
  - rewrite signup_for_activity_eq, dict_get_set_eq. unfold getitem.
    rewrite dict_get_set_eq.
    now rewrite (proj2 (str_in_list (ps ++ [JStr email]) email))
      by (apply in_or_app; right; now left).
Qed.

Lemma signup_again_rejected_witness :
  let f1 := snd (signup_for_activity "Chess Club" "emma@mergington.edu" seeded) in
  signup_for_activity "Chess Club" "emma@mergington.edu" f1 =
    (Raise (HTTPException 400 "Student is already signed up"), f1).
Proof.
  apply (signup_again_rejected seeded "Chess Club" "emma@mergington.edu"
           [JStr "michael@mergington.edu"; JStr "daniel@mergington.edu"]).
  reflexivity.
Defined.

Lemma py_count_zero (l : list json) (e : string) :
  py_count (JStr e) l = 0 -> ~ In (JStr e) l.
Proof.
  unfold py_count. induction l as [|x l IH]; cbn [filter]; [intros _ []|].
  destruct (py_eq x (JStr e)) eqn:E; [discriminate|].
  intros H [->|Hin]; [|now apply IH].
  now rewrite (proj2 (py_eq_str (JStr e) e) eq_refl) in E.
Qed.

(** X15. A repeated unregistration is refused: for a stored activity
    whose participants list holds the email at most once, whatever the
    first unregistration answered, unregistering the same email again
    raises the 400 exception and the file stays as the first call left
    it. *)
Theorem unregister_again_rejected
    (f : store) (name email : string) (ps : list json) :
  participants_of f name = Some ps ->
  py_count (JStr email) ps <= 1 ->
  let f1 := snd (unregister_from_activity name email f) in
  unregister_from_activity name email f1 =
    (Raise (HTTPException 400 "Student is not signed up for this activity"),
     f1).
Proof.
  intros Hps Hcount f1. apply participants_of_Some in Hps.
  destruct Hps as (d & Hd & Hp).
  destruct (str_in email (JArr ps)) as [[|]|e] eqn:Hin;
    [| |discriminate Hin].
  - apply str_in_list in Hin.
    destruct (list_remove_first ps email Hin) as (b & a & Hsplit & Hb & Hrm).
    assert (Hgone : ~ In (JStr email) (b ++ a)).
    { apply py_count_zero. rewrite Hsplit in Hcount.
      change (JStr email :: a) with ([JStr email] ++ a) in Hcount.
      rewrite !py_count_app, py_count_one in Hcount.
      rewrite py_count_app. lia. }
    assert (Hfirst : snd (unregister_from_activity name email f) =
              dict_set f name (dict_set d "participants" (JArr (b ++ a)))).
    { rewrite unregister_from_activity_eq, Hd. unfold getitem. rewrite Hp.
      rewrite (proj2 (str_in_list ps email) Hin).
      rewrite (pull_items_list d "participants" (JStr email) ps Hp).
      now rewrite Hrm. }
    subst f1. rewrite Hfirst.
    rewrite unregister_from_activity_eq, dict_get_set_eq. unfold getitem.
    rewrite dict_get_set_eq.
    now rewrite (proj2 (str_in_list_false (b ++ a) email) Hgone).
  - assert (Hfirst : unregister_from_activity name email f =
              (Raise (HTTPException 400
                        "Student is not signed up for this activity"), f)).
    { rewrite unregister_from_activity_eq, Hd. unfold getitem.
      now rewrite Hp, Hin. }
    subst f1. rewrite Hfirst. cbn [snd]. exact Hfirst.
Qed.

Lemma unregister_again_rejected_witness :
  let f1 := snd (unregister_from_activity "Chess Club"
                   "daniel@mergington.edu" seeded) in
  unregister_from_activity "Chess Club" "daniel@mergington.edu" f1 =
    (Raise (HTTPException 400 "Student is not signed up for this activity"),
     f1).
Proof.
  apply (unregister_again_rejected seeded "Chess Club" "daniel@mergington.edu"
           [JStr "michael@mergington.edu"; JStr "daniel@mergington.edu"]).
  - reflexivity.
  - cbn. lia.
Defined.

(** X16. No sequence of sign-up and unregister calls adds, removes,
    renames or reorders activities or changes their description, schedule
    or capacity: after the sequence the file has the same names in the
    same order, [count_documents] counts as many records as before, and
    every field other than ["participants"] of every activity has the
    value it had. *)
Theorem run_touches_participants_only (rs : list request) (f : store) :
  map fst (run rs f) = map fst f
  /\ count_documents [] (run rs f) = (Return (length f), run rs f)
  /\ (forall name d field,
        dict_get f name = Some d ->
        field <> "participants" ->
        exists d',
          dict_get (run rs f) name = Some d' /\
          dict_get d' field = dict_get d field).
Proof.
  assert (Hkeys : forall rs f, map fst (run rs f) = map fst f).
  { clear. induction rs as [|r rs IH]; intros f; cbn [run]; [reflexivity|].
    now rewrite IH, handle_keys. }
  split; [apply Hkeys|]. split.
  - unfold count_documents, bind, _read, ret.
    now rewrite <- (length_map fst (run rs f)), Hkeys, length_map.
  - revert f. induction rs as [|r rs IH]; intros f name d field Hd Hfield;
      cbn [run].
    + now exists d.
    + destruct (handle_other_fields r f name d field Hd Hfield)
        as (d1 & Hd1 & Heq1).
      destruct (IH _ name d1 field Hd1 Hfield) as (d' & Hd' & Heq').
      exists d'. split; [exact Hd'|congruence].
Qed.

Lemma run_touches_participants_only_witness :
  exists d',
    dict_get (run [Signup "Chess Club" "emma@mergington.edu";
                   Unregister "Chess Club" "michael@mergington.edu"] seeded)
      "Chess Club" = Some d' /\
    dict_get d' "schedule" = dict_get chess_club "schedule".
Proof.
  apply (proj2 (proj2 (run_touches_participants_only
                         [Signup "Chess Club" "emma@mergington.edu";
                          Unregister "Chess Club" "michael@mergington.edu"]
                         seeded))).
  - reflexivity.
  - discriminate.
Defined.

(** X17. Participants are kept in sign-up order: signing up, one after
    the other, emails that differ from each other and are not in the
    participants list of a stored activity leaves that list followed by
    the emails in the order of the calls. *)
Theorem signups_append_in_order (emails : list string) :
  forall (f : store) (name : string) (ps : list json),
    participants_of f name = Some ps ->
    NoDup emails ->
    (forall e, In e emails -> ~ In (JStr e) ps) ->
    participants_of (run (map (Signup name) emails) f) name =
    Some (ps ++ map JStr emails).
Proof.
  induction emails as [|e emails IH]; intros f name ps Hps Hnd Hnew;
    cbn [map run handle].
  - now rewrite app_nil_r.
  - inversion Hnd as [|? ? He Hnd']; subst.
    apply participants_of_Some in Hps. destruct Hps as (d & Hd & Hp).
    assert (Hrun : snd (signup_for_activity name e f) =
              dict_set f name
                (dict_set d "participants" (JArr (ps ++ [JStr e])))).
    { rewrite signup_for_activity_eq, Hd. unfold getitem. rewrite Hp.
      rewrite (proj2 (str_in_list_false ps e)) by (apply Hnew; now left).
      now rewrite (push_items_list d "participants" (JStr e) ps Hp). }
    rewrite Hrun.
    rewrite (IH _ name (ps ++ [JStr e])).
    + now rewrite <- app_assoc.
    + apply participants_of_set.
    + exact Hnd'.
    + intros x Hx Hin. apply in_app_or in Hin. destruct Hin as [Hin|[Hin|[]]].
      * apply (Hnew x); [now right|exact Hin].
      * injection Hin as ->. contradiction.
Qed.

Lemma signups_append_in_order_witness :
  participants_of
    (run (map (Signup "Chess Club")
            ["emma@mergington.edu"; "ava@mergington.edu"]) seeded)
    "Chess Club" =
  Some ([JStr "michael@mergington.edu"; JStr "daniel@mergington.edu"]
        ++ map JStr ["emma@mergington.edu"; "ava@mergington.edu"]).
Proof.
  apply (signups_append_in_order ["emma@mergington.edu"; "ava@mergington.edu"]
           seeded "Chess Club").
  - reflexivity.
  - apply NoDup_pair. discriminate.
  - intros e [<-|[<-|[]]] [H|[H|[]]]; discriminate H.
Defined.

(** X18. On a stored record whose ["participants"] is missing or is not a
    list, neither handler returns its confirmation or writes anything;
    when the field is missing both raise [KeyError], which the client sees
    as status 500. *)
Theorem handlers_need_participants_list
    (f : store) (name email : string) (d : doc) :
  dict_get f name = Some d ->
  (forall ps, dict_get d "participants" <> Some (JArr ps)) ->
  (forall r, r = Signup name email \/ r = Unregister name email ->
     snd (handle r f) = f /\
     (forall answer, fst (handle r f) <> Return answer) /\
     (dict_get d "participants" = None ->
        fst (handle r f) = Raise KeyError /\ status (fst (handle r f)) = 500%Z)).
Proof.
  intros Hd Hnolist r Hr.
  assert (Hfail : exists e, handle r f = (Raise e, f) /\
            (dict_get d "participants" = None -> e = KeyError)).
  { destruct Hr as [-> | ->]; cbn [handle].
    - rewrite signup_for_activity_eq, Hd. unfold getitem.
      destruct (dict_get d "participants") as [c|] eqn:Hc;
        [|now exists KeyError].
      destruct (str_in email c) as [[|]|e];
        [eexists; split; [reflexivity|discriminate]
        | |eexists; split; [reflexivity|discriminate]].
      rewrite (push_items_not_list d "participants" (JStr email) c Hc).
      + eexists; split; [reflexivity|discriminate].
      + intros l ->. now apply (Hnolist l).
    - rewrite unregister_from_activity_eq, Hd. unfold getitem.
      destruct (dict_get d "participants") as [c|] eqn:Hc;
        [|now exists KeyError].
      destruct (str_in email c) as [[|]|e];
        [|eexists; split; [reflexivity|discriminate]
        |eexists; split; [reflexivity|discriminate]].
      rewrite (pull_items_not_list d "participants" (JStr email) c Hc).
      + eexists; split; [reflexivity|discriminate].
      + intros l ->. now apply (Hnolist l). }
  destruct Hfail as (e & -> & Hkey). cbn [fst snd].
  split; [reflexivity|]. split; [discriminate|].
  intros Hnone. now rewrite (Hkey Hnone).
Qed.

Lemma handlers_need_participants_list_witness :
  handle (Signup "Duet" "emma@mergington.edu")
    [("Duet", [("description", JStr "Sing in pairs")])] =
  (Raise KeyError, [("Duet", [("description", JStr "Sing in pairs")])]).
Proof.
  destruct (handlers_need_participants_list
              [("Duet", [("description", JStr "Sing in pairs")])]
              "Duet" "emma@mergington.edu"
              [("description", JStr "Sing in pairs")] eq_refl)
    with (r := Signup "Duet" "emma@mergington.edu")
    as (Hsame & _ & Hkey).
  - intros ps. discriminate.
  - now left.
  - apply injective_projections; [|exact Hsame].
    exact (proj1 (Hkey eq_refl)).
Defined.

Lemma dict_get_with_id_id (k : json) (v : doc) :
  dict_get (with_id k v) "_id" =
  Some (match dict_get v "_id" with Some own => own | None => k end).
Proof. unfold with_id. now rewrite dict_get_cons. Qed.

Lemma collect_raises (docs : list doc) : forall (acc : response) (e : exn),
  Forall (fun d => dict_get d "_id" <> None) docs ->
  collect docs acc = Raise e -> e = TypeError.
Proof.
  induction docs as [|d docs IH]; intros acc e Hdocs; cbn [collect].
  - discriminate.
  - inversion Hdocs as [|? ? Hd Hrest]; subst.
    destruct (dict_get d "_id") as [x|]; [|congruence].
    destruct (hashable x); [now apply IH|now intros [= <-]].
Qed.

Lemma collect_returns (docs : list doc) : forall acc : response,
  Forall (fun d => exists x, dict_get d "_id" = Some x /\ hashable x = true)
    docs ->
  exists acts, collect docs acc = Return acts.
Proof.
  induction docs as [|d docs IH]; intros acc Hdocs; cbn [collect].
  - now exists acc.
  - inversion Hdocs as [|? ? (x & Hx & Hh) Hrest]; subst.
    rewrite Hx, Hh. now apply IH.
Qed.

(** X19. [get_activities] never writes, and the [pop] of ["_id"] never
    fails: the only exception it can raise is the [TypeError] of a stored
    document whose own ["_id"] is a list or a dictionary, which cannot be
    a key of the answer.  On every file without such a document it returns
    a mapping. *)
Theorem get_activities_returns (f : store) :
  snd (get_activities f) = f
  /\ (forall e, fst (get_activities f) = Raise e -> e = TypeError)
  /\ (Forall (fun kv => forall x, dict_get (snd kv) "_id" = Some x ->
                                  hashable x = true) f ->
      exists acts, get_activities f = (Return acts, f)).
Proof.
  unfold get_activities, find, bind, _read, ret, lift. cbn [fst snd].
  split; [reflexivity|]. split.
  - intros e. apply collect_raises.
    apply Forall_map, Forall_forall. intros [k v] _.
    now rewrite dict_get_with_id_id.
  - intros Hok.
    destruct (collect_returns
                (map (fun kv => with_id (JStr (fst kv)) (snd kv)) f) [])
      as (acts & ->); [|now exists acts].
    apply Forall_map. revert Hok. apply Forall_impl. intros [k v] Hv.
    cbn [fst snd] in *. rewrite dict_get_with_id_id.
    eexists. split; [reflexivity|].
    destruct (dict_get v "_id") as [own|]; [now apply Hv|reflexivity].
Qed.

Lemma get_activities_returns_witness :
  exists acts,
    get_activities [("A", [("_id", JStr "B")]); ("C", [("_id", JNum 7)])] =
    (Return acts, [("A", [("_id", JStr "B")]); ("C", [("_id", JNum 7)])]).
Proof.
  apply (proj2 (proj2 (get_activities_returns
                         [("A", [("_id", JStr "B")]);
                          ("C", [("_id", JNum 7)])]))).
  repeat constructor; cbn; intros x [= <-]; reflexivity.
Defined.

(** X20. No server error on well-formed data: when every stored activity
    has a list of distinct email strings as participants, as the seed data
    has, then after any sequence of sign-up and unregister calls every
    further call is answered with status 200, 400 or 404, never 500. *)
Theorem handlers_answer_200_400_404
    (f : store) (rs : list request) (r : request) :
  all_unique f ->
  let answer := fst (handle r (run rs f)) in
  status answer = 200%Z \/ status answer = 400%Z \/ status answer = 404%Z.
Proof.
  intros Hinv answer. subst answer.
  pose proof (run_all_unique rs f Hinv) as Hrun.
  set (g := run rs f) in *. clearbody g.
  destruct r as [name email|name email]; cbn [handle].
  - rewrite signup_for_activity_eq.
    destruct (dict_get g name) as [d|] eqn:Hd; [|now right; right].
    destruct (Forall_dict_get unique_emails g name d Hrun Hd)
      as (emails & Hp & _).
    unfold getitem. rewrite Hp. cbn [str_in].
    destruct (existsb _ (map JStr emails)); [now right; left|].
    rewrite (push_items_list d "participants" (JStr email) _ Hp). now left.
  - rewrite unregister_from_activity_eq.
    destruct (dict_get g name) as [d|] eqn:Hd; [|now right; right].
    destruct (Forall_dict_get unique_emails g name d Hrun Hd)
      as (emails & Hp & _).
    unfold getitem. rewrite Hp. cbn [str_in].
    destruct (existsb _ (map JStr emails)) eqn:Hin; [|now right; left].
    rewrite (pull_items_list d "participants" (JStr email) _ Hp).
    destruct (list_remove_found (JStr email) (map JStr emails) Hin)
      as (l' & -> & _).
    now left.
Qed.

Lemma handlers_answer_200_400_404_witness :
  let answer :=
    fst (handle (Unregister "Gym Class" "emma@mergington.edu")
           (run [Signup "Chess Club" "emma@mergington.edu"] seeded)) in
  status answer = 200%Z \/ status answer = 400%Z \/ status answer = 404%Z.
Proof.
  apply (handlers_answer_200_400_404 seeded
           [Signup "Chess Club" "emma@mergington.edu"]
           (Unregister "Gym Class" "emma@mergington.edu")).
  change seeded with initial_activities.
  repeat (constructor;
          [eexists; split;
           [reflexivity
           |constructor;
            [intros [H|[]]; discriminate H
            |constructor; [intros []|constructor]]]|]).
  constructor.
Defined.

(** X21. Unregistering and signing up again moves a participant to the
    end: for a stored activity whose participants list holds the email
    exactly once, [before] it and [after] it being the other participants,
    the two calls succeed and leave the list [before], [after], then the
    email. *)
Theorem unregister_then_signup_moves_last
    (f : store) (name email : string) (d : doc) (before after : list json) :
  dict_get f name = Some d ->
  dict_get d "participants" = Some (JArr (before ++ JStr email :: after)) ->
  ~ In (JStr email) before ->
  ~ In (JStr email) after ->
  let f1 := snd (unregister_from_activity name email f) in
  fst (unregister_from_activity name email f) =
    Return [("message", JStr ("Unregistered " ++ email ++ " from " ++ name))]
  /\ fst (signup_for_activity name email f1) =
    Return [("message", JStr ("Signed up " ++ email ++ " for " ++ name))]
  /\ participants_of (snd (signup_for_activity name email f1)) name =
    Some (before ++ after ++ [JStr email]).
Proof.
  intros Hd Hp Hb Ha f1.
  assert (Hrm : list_remove (JStr email) (before ++ JStr email :: after) =
                Some (before ++ after)).
  { clear Hp. induction before as [|x b IH]; cbn [app list_remove].
    - now rewrite (proj2 (py_eq_str (JStr email) email) eq_refl).
    - rewrite (proj2 (py_eq_str_false x email))
        by (intros ->; apply Hb; now left).
      rewrite IH; [reflexivity|]. intros H. apply Hb. now right. }
  assert (Hfirst : unregister_from_activity name email f =
            (Return (unregistered email name),
             dict_set f name
               (dict_set d "participants" (JArr (before ++ after))))).
  { rewrite unregister_from_activity_eq, Hd. unfold getitem. rewrite Hp.
    rewrite (proj2 (str_in_list _ email))
      by (apply in_or_app; right; now left).
    rewrite (pull_items_list d "participants" (JStr email) _ Hp).
    now rewrite Hrm. }
  subst f1. rewrite Hfirst. cbn [fst snd].
  split; [reflexivity|].
  assert (Hgone : ~ In (JStr email) (before ++ after)).
  { intros H. apply in_app_or in H. tauto. }
  rewrite signup_for_activity_eq, dict_get_set_eq. unfold getitem.
  rewrite dict_get_set_eq.
  rewrite (proj2 (str_in_list_false (before ++ after) email) Hgone).
  rewrite (push_items_list _ "participants" (JStr email) (before ++ after)
             (dict_get_set_eq _ _ _)).
  cbn [fst snd]. split; [reflexivity|].
  rewrite !dict_set_set, participants_of_set. now rewrite <- app_assoc.
Qed.

Lemma unregister_then_signup_moves_last_witness :
  let f1 := snd (unregister_from_activity "Chess Club"
                   "michael@mergington.edu" seeded) in
  fst (unregister_from_activity "Chess Club" "michael@mergington.edu" seeded) =
    Return [("message",
             JStr ("Unregistered " ++ "michael@mergington.edu" ++
                   " from " ++ "Chess Club"))]
  /\ fst (signup_for_activity "Chess Club" "michael@mergington.edu" f1) =
    Return [("message",
             JStr ("Signed up " ++ "michael@mergington.edu" ++
                   " for " ++ "Chess Club"))]
  /\ participants_of
       (snd (signup_for_activity "Chess Club" "michael@mergington.edu" f1))
       "Chess Club" =
     Some ([] ++ [JStr "daniel@mergington.edu"]
              ++ [JStr "michael@mergington.edu"]).
Proof.
  apply (unregister_then_signup_moves_last seeded "Chess Club"
           "michael@mergington.edu" chess_club []
           [JStr "daniel@mergington.edu"]).
  - reflexivity.
  - reflexivity.
  - intros [].
  - intros [H|[]]. discriminate H.
Defined.
